(** * The download pipeline of the exercism command line client

    A shallow embedding of [cmd/cmd.go] (the struct-composition pipeline:
    [downloadParams], [download], [downloadWriter]) and of the older
    flat-parameter pipeline ([getDownloadPayload],
    [writeSolutionFilesFromPayload]), with the properties the specification
    states about them.

    Go strings are modelled as [string] (sequences of bytes), Go's [error]
    as an optional message, [url.Values] and [http.Header] as finite maps
    from a key to the list of its values. *)

From Stdlib Require Import Ascii String ZArith Lia.
From stdpp Require Import base option list strings gmap.

Local Open Scope Z_scope.

(** ** Package [strings] *)

Module Strings.

(** [strings.Replace(s, old, new, -1)] for a one-byte [old] and [new]. *)
Fixpoint Replace (s : string) (old new : ascii) : string :=
  match s with
  | EmptyString => EmptyString
  | String c s' =>
      String (if Ascii.eqb c old then new else c) (Replace s' old new)
  end.

(** [strings.Join(elems, sep)]. *)
Fixpoint Join (elems : list string) (sep : string) : string :=
  match elems with
  | [] => ""
  | [e] => e
  | e :: rest => e +:+ sep +:+ Join rest sep
  end.

(** [strings.Split(s, sep)] for a one-byte separator: the fields between
    the separators, empty fields included. *)
Fixpoint Split (s : string) (sep : ascii) : list string :=
  match s with
  | EmptyString => [EmptyString]
  | String c s' =>
      if Ascii.eqb c sep then EmptyString :: Split s' sep
      else match Split s' sep with
           | [] => [String c EmptyString]
           | f :: fs => String c f :: fs
           end
  end.

End Strings.

(** ** Package [regexp], as far as the legacy pattern needs it

    The pattern of [sanitizeLegacyNumericSuffixFilepath] is a sequence of
    single-byte classes and greedy stars of such classes, anchored at the
    beginning of the text by [\A]. *)

Module Regexp.

Inductive atom : Type :=
| Class (p : ascii → bool)   (* one byte of the class *)
| Star (p : ascii → bool).   (* greedy repetition of the class *)

Definition Lit (c : ascii) : atom := Class (Ascii.eqb c).

Fixpoint literal (s : string) : list atom :=
  match s with
  | EmptyString => []
  | String c s' => Lit c :: literal s'
  end.

(** [.] without the [s] flag: any byte but a line feed. *)
Definition dot (c : ascii) : bool := negb (Ascii.eqb c "010").

(** [\d]: an ASCII digit. *)
Definition digit (c : ascii) : bool :=
  let n := N_of_ascii c in (N.leb 48 n && N.leb n 57)%bool.

(** [[/\\]]: a slash or a backslash. *)
Definition slashes (c : ascii) : bool :=
  (Ascii.eqb c "/" || Ascii.eqb c "\")%bool.

(** Greedy star with backtracking: take as many bytes of the class as
    the continuation [k] allows, the longest run first. *)
Fixpoint matchStar (p : ascii → bool) (k : string → option string)
    (s : string) : option string :=
  match s with
  | EmptyString => k EmptyString
  | String c s' =>
      if p c then
        match matchStar p k s' with
        | Some rest => Some rest
        | None => k s
        end
      else k s
  end.

(** The leftmost-first match of the atoms at the start of [s]; the
    result is the text after the match. *)
Fixpoint matchHere (re : list atom) : string → option string :=
  match re with
  | [] => Some
  | Class p :: re' => fun s =>
      match s with
      | EmptyString => None
      | String c s' => if p c then matchHere re' s' else None
      end
  | Star p :: re' => matchStar p (matchHere re')
  end.

(** A pattern that starts with [\A] only matches at offset 0. *)
Definition MatchString (re : list atom) (s : string) : bool :=
  bool_decide (is_Some (matchHere re s)).

(** [ReplaceAll] for such an anchored pattern: the one possible match,
    at offset 0, is replaced. *)
Definition ReplaceAll (re : list atom) (src repl : string) : string :=
  match matchHere re src with
  | Some rest => repl +:+ rest
  | None => src
  end.

End Regexp.

(** ** Package [path/filepath] *)

Module Filepath.

(** [filepath.FromSlash] on a host whose separator is [sep]. *)
Definition FromSlash (sep : ascii) (path : string) : string :=
  if Ascii.eqb sep "/" then path else Strings.Replace path "/" sep.

(** The remaining functions are those of a Unix host, where the
    separator is ["/"] and a path has no volume name. *)

(** One round of the loop of [filepath.Clean], on a whole path element.
    [out] holds the elements written so far, the last one first: an empty
    element and ["."] are dropped, [".."] removes the last element when
    there is one to remove, is dropped at the root, and is kept at the
    front of a relative path. *)
Definition cleanStep (rooted : bool) (out : list string) (elem : string)
    : list string :=
  if bool_decide (elem = "") then out
  else if bool_decide (elem = ".") then out
  else if bool_decide (elem = "..") then
    match out with
    | [] => if rooted then [] else [".."]
    | last :: out' => if bool_decide (last = "..") then ".." :: out else out'
    end
  else elem :: out.

Definition isRooted (path : string) : bool :=
  match path with
  | String c _ => Ascii.eqb c "/"
  | EmptyString => false
  end.

(** The buffer of [filepath.Clean] as a string: the elements joined by the
    separator, after the root of a rooted path; an empty buffer is
    ["."]. *)
Definition render (rooted : bool) (out : list string) : string :=
  if rooted then "/" +:+ Strings.Join (reverse out) "/"
  else match out with
       | [] => "."
       | _ => Strings.Join (reverse out) "/"
       end.

(** [filepath.Clean]. *)
Definition Clean (path : string) : string :=
  if bool_decide (path = "") then "."
  else
    let rooted := isRooted path in
    render rooted (foldl (cleanStep rooted) [] (Strings.Split path "/")).

(** [filepath.Join]: the elements from the first non-empty one on are
    joined by the separator and cleaned. *)
Fixpoint Join (elem : list string) : string :=
  match elem with
  | [] => ""
  | e :: rest =>
      if bool_decide (e = "") then Join rest
      else Clean (Strings.Join elem "/")
  end.

Fixpoint hasSlash (s : string) : bool :=
  match s with
  | EmptyString => false
  | String c s' => (Ascii.eqb c "/" || hasSlash s')%bool
  end.

(** The path up to and including its last separator. *)
Fixpoint uptoLastSlash (path : string) : string :=
  match path with
  | EmptyString => EmptyString
  | String c s' =>
      if hasSlash path then String c (uptoLastSlash s') else EmptyString
  end.

(** [filepath.Dir]. *)
Definition Dir (path : string) : string := Clean (uptoLastSlash path).

End Filepath.

(** ** [sanitizeLegacyNumericSuffixFilepath] *)

(** The pattern [\A.*[/\\]%s-\d*/] with the slug spliced in.  Exercise
    slugs are words of letters and digits joined by ["-"], which the
    pattern syntax reads as literals; the embedding is that of the source
    for such slugs ([literalSlug] below), and the properties that depend
    on how the slug is read assume it.  A slug with pattern operators in
    it makes another pattern, or none that compiles. *)
Definition legacyPattern (slug : string) : list Regexp.atom :=
  [Regexp.Star Regexp.dot; Regexp.Class Regexp.slashes]
    ++ Regexp.literal slug
    ++ [Regexp.Lit "-"; Regexp.Star Regexp.digit; Regexp.Lit "/"].

Definition sanitizeLegacyNumericSuffixFilepath
    (sep : ascii) (file slug : string) : string :=
  let rgxNumericSuffix := legacyPattern slug in
  let file :=
    if Regexp.MatchString rgxNumericSuffix file
    then Regexp.ReplaceAll rgxNumericSuffix file ""
    else file in
  let file := Strings.Replace file "\" "/" in
  Filepath.FromSlash sep file.

(** ** Data model *)

(** Go's [error]: [None] is [nil], [Some msg] an error with that message. *)
Definition error : Type := option string.

(** [url.Values] and [http.Header]: a key maps to the list of its values. *)
Abbreviation Values := (gmap string (list string)).

(** [Values.Add]: the value is appended to the values of the key. *)
Definition Add (key value : string) (v : Values) : Values :=
  <[key := default [] (v !! key) ++ [value]]> v.

(** [Header.Get]: the first value of the key, or the empty string. *)
Definition Get (h : Values) (key : string) : string :=
  match h !! key with
  | Some (value :: _) => value
  | _ => ""
  end.

(** A [url.URL]: what stands before the query, and the parsed query. *)
Record URL : Type := mkURL {
  Location : string;
  Query : Values
}.

Record Request : Type := mkRequest {
  Method : string;
  ReqURL : URL
}.

Record Response : Type := mkResponse {
  StatusCode : Z;
  Header : Values;
  Body : string
}.

Definition StatusOK : Z := 200.
Definition StatusUnauthorized : Z := 401.

(** [downloadParams] of [cmd.go]. *)
Record downloadParams : Type := mkParams {
  slug : string;
  uuid : string;
  token : string;
  apibaseurl : string;
  workspace : string;
  track : string;
  team : string;
  fromExercise : bool;
  fromFlags : bool
}.

(** [downloadPayload], the same struct in both files. *)
Record TeamT : Type := mkTeam {
  Team_Name : string;
  Team_Slug : string
}.

Record UserT : Type := mkUser {
  User_Handle : string;
  User_IsRequester : bool
}.

Record TrackT : Type := mkTrack {
  Track_ID : string;
  Track_Language : string
}.

Record ExerciseT : Type := mkExercise {
  Exercise_ID : string;
  Exercise_InstructionsURL : string;
  Exercise_AutoApprove : bool;
  Exercise_Track : TrackT
}.

Record SolutionT : Type := mkSolution {
  Solution_ID : string;
  Solution_URL : string;
  Solution_Team : TeamT;
  Solution_User : UserT;
  Solution_Exercise : ExerciseT;
  FileDownloadBaseURL : string;
  Files : list string;
  Iteration_SubmittedAt : option string
}.

Record ErrorT : Type := mkError {
  Error_Type : string;
  Error_Message : string;
  PossibleTrackIDs : list string
}.

Record downloadPayload : Type := mkPayload {
  Solution : SolutionT;
  Error : ErrorT
}.

(** The zero value of the payload struct. *)
Definition zeroPayload : downloadPayload :=
  mkPayload
    (mkSolution "" "" (mkTeam "" "") (mkUser "" false)
       (mkExercise "" "" false (mkTrack "" "")) "" [] None)
    (mkError "" "" []).

(** [download]: the parameters and the payload.  In the source the payload
    is held by a pointer that is nil until the response is decoded; no
    method reads it before, and the model holds the zero payload until
    then.  The [downloadWriter] holds nothing but the download itself. *)
Record download : Type := mkDownload {
  params : downloadParams;
  payload : downloadPayload
}.

(** [workspace.ExerciseMetadata] and [workspace.Exercise]. *)
Record ExerciseMetadata : Type := mkMetadata {
  Meta_AutoApprove : bool;
  Meta_Track : string;
  Meta_Team : string;
  Meta_Exercise : string;
  Meta_ID : string;
  Meta_URL : string;
  Meta_Handle : string;
  Meta_IsRequester : bool
}.

Record Exercise : Type := mkWsExercise {
  Root : string;
  Track : string;
  Slug : string
}.

(** ** Validation of the parameters *)

Definition isEmpty (s : string) : bool := bool_decide (s = "").

(** [needsSlugXorUUID]. *)
Definition needsSlugXorUUID (d : downloadParams) : error :=
  if (negb (isEmpty (slug d)) && negb (isEmpty (uuid d))
      || bool_decide (uuid d = slug d))%bool
  then
    if fromFlags d
    then Some "need an --exercise name or a solution --uuid"
    else Some "need a 'slug' or a 'uuid'"
  else None.

(** [needsUserConfigValues]. *)
Definition needsUserConfigValues (d : downloadParams) : error :=
  let errMsg (field : string) :=
    "missing required user config: '" +:+ field +:+ "'" in
  if isEmpty (token d) then Some (errMsg "token")
  else if isEmpty (apibaseurl d) then Some (errMsg "apibaseurl")
  else if isEmpty (workspace d) then Some (errMsg "workspace")
  else None.

(** [needsSlugWhenGivenTrackOrTeam]. *)
Definition needsSlugWhenGivenTrackOrTeam (d : downloadParams) : error :=
  if fromFlags d then
    if ((negb (isEmpty (team d)) || negb (isEmpty (track d)))
        && isEmpty (slug d))%bool
    then Some "--team or --track requires --exercise (not --uuid)"
    else None
  else None.

(** [downloadParams.validate]: the three rules in order, the first error
    is returned. *)
Definition validateParams (d : downloadParams) : error :=
  match needsSlugXorUUID d with
  | Some err => Some err
  | None =>
      match needsUserConfigValues d with
      | Some err => Some err
      | None =>
          match needsSlugWhenGivenTrackOrTeam d with
          | Some err => Some err
          | None => None
          end
      end
  end.

(** ** Request construction of the struct pipeline *)

(** [download.requestURL]. *)
Definition requestURL (d : download) : string :=
  let id := if negb (isEmpty (uuid (params d))) then uuid (params d)
            else "latest" in
  apibaseurl (params d) +:+ "/solutions/" +:+ id.

(** [download.buildQuery]: the query of the URL is read, extended and
    written back. *)
Definition buildQuery (d : download) (url : URL) : URL :=
  let query := Query url in
  let query :=
    if negb (isEmpty (slug (params d))) then
      let query := Add "exercise_id" (slug (params d)) query in
      let query := if negb (isEmpty (track (params d)))
                   then Add "track_id" (track (params d)) query
                   else query in
      if negb (isEmpty (team (params d)))
      then Add "team_id" (team (params d)) query
      else query
    else query in
  mkURL (Location url) query.

(** ** The payload: metadata, location, validation *)

(** [download.metadata]. *)
Definition metadata (d : download) : ExerciseMetadata :=
  let s := Solution (payload d) in
  mkMetadata
    (Exercise_AutoApprove (Solution_Exercise s))
    (Track_ID (Exercise_Track (Solution_Exercise s)))
    (Team_Slug (Solution_Team s))
    (Exercise_ID (Solution_Exercise s))
    (Solution_ID s)
    (Solution_URL s)
    (User_Handle (Solution_User s))
    (User_IsRequester (Solution_User s)).

Definition isTeamSolution (d : download) : bool :=
  negb (isEmpty (Team_Slug (Solution_Team (Solution (payload d))))).

Definition solutionBelongsToOtherUser (d : download) : bool :=
  negb (User_IsRequester (Solution_User (Solution (payload d)))).

(** [download.solutionRoot]. *)
Definition solutionRoot (d : download) : string :=
  let root := workspace (params d) in
  let root :=
    if isTeamSolution d
    then Filepath.Join
           [root; "teams"; Team_Slug (Solution_Team (Solution (payload d)))]
    else root in
  if solutionBelongsToOtherUser d
  then Filepath.Join
         [root; "users"; User_Handle (Solution_User (Solution (payload d)))]
  else root.

(** [download.exercise]. *)
Definition exercise (d : download) : Exercise :=
  mkWsExercise (solutionRoot d)
    (Track_ID (Exercise_Track (Solution_Exercise (Solution (payload d)))))
    (Exercise_ID (Solution_Exercise (Solution (payload d)))).

(** [download.validate]. *)
Definition validate (d : download) : error :=
  if isEmpty (Solution_ID (Solution (payload d)))
  then Some "download missing an ID"
  else if negb (isEmpty (Error_Message (Error (payload d))))
  then Some (Error_Message (Error (payload d)))
  else None.

(** ** Collaborators and effects

    The packages [api], [config] and [workspace], the JSON decoder, the URL
    parser and the file system are not part of the pipeline; they are taken
    as given.  What the pipeline does to them is recorded in a trace, and
    the answer of the transport may depend on the trace so far. *)

Inductive event : Type :=
| EvNewClient (token baseurl : string)
| EvDo (req : Request)
| EvMkdirAll (path : string)
| EvCreate (path : string)
| EvCopy (path body : string).

Record Collaborators (Client Disk : Type) : Type := mkCollaborators {
  (* api.NewClient: the client and the error, both as returned *)
  api_NewClient : string → string → Client * error;
  (* Client.NewRequest(method, url, nil) *)
  client_NewRequest : Client → string → string → Request + string;
  (* Client.Do, after the given history *)
  client_Do : list event → Client → Request → Response + string;
  (* json.NewDecoder(body).Decode into a payload *)
  json_Decode : string → downloadPayload + string;
  (* url.ParseRequestURI and URL.String *)
  url_ParseRequestURI : string → URL + string;
  url_String : URL → string;
  (* config.InferSiteURL *)
  config_InferSiteURL : string → string;
  (* workspace.Exercise.MetadataDir *)
  ws_MetadataDir : Exercise → string;
  (* os.MkdirAll, os.Create and io.Copy into the created file *)
  os_MkdirAll : Disk → string → Disk * error;
  os_Create : Disk → string → Disk * error;
  io_Copy : Disk → string → string → Disk * error
}.

Arguments api_NewClient {Client Disk}.
Arguments client_NewRequest {Client Disk}.
Arguments client_Do {Client Disk}.
Arguments json_Decode {Client Disk}.
Arguments url_ParseRequestURI {Client Disk}.
Arguments url_String {Client Disk}.
Arguments config_InferSiteURL {Client Disk}.
Arguments ws_MetadataDir {Client Disk}.
Arguments os_MkdirAll {Client Disk}.
Arguments os_Create {Client Disk}.
Arguments io_Copy {Client Disk}.

Record World (Disk : Type) : Type := mkWorld {
  trace : list event;
  disk : Disk
}.

Arguments mkWorld {Disk}.
Arguments trace {Disk}.
Arguments disk {Disk}.

(** The outcome of a call that returns a value or an error. *)
Inductive result (A : Type) : Type :=
| Ok (a : A)
| Err (msg : string).

Arguments Ok {A}.
Arguments Err {A}.

(** Computations over the world that may stop with an error. *)
Definition M (Disk A : Type) : Type := World Disk → result A * World Disk.

Definition ret {Disk A} (a : A) : M Disk A := fun w => (Ok a, w).

Definition fail {Disk A} (msg : string) : M Disk A := fun w => (Err msg, w).

Definition bind {Disk A B} (m : M Disk A) (k : A → M Disk B) : M Disk B :=
  fun w =>
    match m w with
    | (Ok a, w') => k a w'
    | (Err msg, w') => (Err msg, w')
    end.

#[global] Instance M_ret {Disk} : MRet (M Disk) := @ret Disk.
#[global] Instance M_bind {Disk} : MBind (M Disk) :=
  fun A B k m => bind m k.

(** A pure call that returns a value or an error. *)
Definition lift {Disk A} (r : A + string) : M Disk A :=
  match r with
  | inl a => ret a
  | inr msg => fail msg
  end.

(** A call that returns only an error. *)
Definition check {Disk} (e : error) : M Disk unit :=
  match e with
  | None => ret tt
  | Some msg => fail msg
  end.

Definition emit {Disk} (e : event) : M Disk unit :=
  fun w => (Ok tt, mkWorld (trace w ++ [e]) (disk w)).

Section Pipeline.

Context {Client Disk : Type}.
Variable E : Collaborators Client Disk.

(** [api.NewClient]: both results are handed to the caller. *)
Definition NewClient (tok base : string) : M Disk (Client * error) :=
  emit (EvNewClient tok base);;
  ret (api_NewClient E tok base).

Definition Do (client : Client) (req : Request) : M Disk Response :=
  fun w =>
    match client_Do E (trace w) client req with
    | inl res => (Ok res, mkWorld (trace w ++ [EvDo req]) (disk w))
    | inr msg => (Err msg, mkWorld (trace w ++ [EvDo req]) (disk w))
    end.

Definition onDisk (ev : event) (op : Disk → Disk * error) : M Disk unit :=
  fun w =>
    let '(dk, e) := op (disk w) in
    check e (mkWorld (trace w ++ [ev]) dk).

Definition MkdirAll (path : string) : M Disk unit :=
  onDisk (EvMkdirAll path) (fun dk => os_MkdirAll E dk path).

Definition Create (path : string) : M Disk unit :=
  onDisk (EvCreate path) (fun dk => os_Create E dk path).

Definition Copy (path body : string) : M Disk unit :=
  onDisk (EvCopy path body) (fun dk => io_Copy E dk path body).

(** *** [newDownload] *)

(** The body of [newDownload] after the validation of the parameters; it
    ends with [return d, d.validate()], the download and an error. *)
Definition fetchPayload (p : downloadParams) : M Disk (download * error) :=
  let d := mkDownload p zeroPayload in
  cl ← NewClient (token p) (apibaseurl p);
  match cl.2 with
  | Some err => fail err
  | None =>
      let client := cl.1 in
      req ← lift (client_NewRequest E client "GET" (requestURL d));
      let req := mkRequest (Method req) (buildQuery d (ReqURL req)) in
      res ← Do client req;
      match json_Decode E (Body res) with
      | inr err => fail ("unable to parse API response - " +:+ err)
      | inl pl =>
          let d := mkDownload p pl in
          if bool_decide (StatusCode res = StatusUnauthorized) then
            fail ("unauthorized request. Please run the configure command. You can find your API token at "
                  +:+ config_InferSiteURL E (apibaseurl p) +:+ "/my/settings")
          else if negb (bool_decide (StatusCode res = StatusOK)) then
            if bool_decide (Error_Type (Error pl) = "track_ambiguous") then
              fail (Error_Message (Error pl) +:+ ": "
                    +:+ Strings.Join (PossibleTrackIDs (Error pl)) ", ")
            else fail (Error_Message (Error pl))
          else ret (d, validate d)
      end
  end.

(** [newDownload]: the download and the error, both as the source
    returns them. *)
Definition newDownload (p : downloadParams) (w : World Disk)
    : (option download * error) * World Disk :=
  match validateParams p with
  | Some err => ((None, Some err), w)
  | None =>
      match fetchPayload p w with
      | (Ok (d, err), w') => ((Some d, err), w')
      | (Err msg, w') => ((None, Some msg), w')
      end
  end.

(** *** [requestFile] *)

(** The error of [api.NewClient] is assigned to [err] and replaced by the
    error of [NewRequest] before anything reads it.  A swallowed
    response is [None], the nil response of the source. *)
Definition requestFile (d : download) (filename : string)
    : M Disk (option Response) :=
  parsedURL ← lift (url_ParseRequestURI E
                      (FileDownloadBaseURL (Solution (payload d))
                       +:+ filename));
  cl ← NewClient (token (params d)) (apibaseurl (params d));
  let client := cl.1 in
  req ← lift (client_NewRequest E client "GET" (url_String E parsedURL));
  res ← Do client req;
  if negb (bool_decide (StatusCode res = StatusOK)) then ret None
  else if bool_decide (Get (Header res) "Content-Length" = "0") then ret None
  else ret (Some res).

(** *** [downloadWriter] *)

Definition destination (d : download) : string :=
  ws_MetadataDir E (exercise d).

(** The loop of [writeSolutionFiles] over the remaining file names. *)
Fixpoint writeFiles (d : download) (files : list string) : M Disk unit :=
  match files with
  | [] => ret tt
  | filename :: rest =>
      res ← requestFile d filename;
      match res with
      | None => writeFiles d rest
      | Some res =>
          let sanitizedPath :=
            sanitizeLegacyNumericSuffixFilepath "/" filename
              (Slug (exercise d)) in
          let fileWritePath :=
            Filepath.Join [destination d; sanitizedPath] in
          MkdirAll (Filepath.Dir fileWritePath);;
          Create fileWritePath;;
          Copy fileWritePath (Body res);;
          writeFiles d rest
      end
  end.

(** [downloadWriter.writeSolutionFiles]. *)
Definition writeSolutionFiles (d : download) : M Disk unit :=
  if fromExercise (params d)
  then fail "existing exercise files should not be overwritten"
  else writeFiles d (Files (Solution (payload d))).

End Pipeline.

(** ** The flat-parameter pipeline *)

Module Flat.

(** The user configuration, read with [GetString]. *)
Definition GetString (cfg : gmap string string) (key : string) : string :=
  default "" (cfg !! key).

(** [downloadParams] of the flat pipeline; [cfg] stands for the user
    configuration inside [config.Config]. *)
Record downloadParams : Type := mkParams {
  cfg : gmap string string;
  uuid : string;
  slug : string;
  track : string;
  team : string;
  urlParam : string
}.

(** The URL that [getDownloadPayload] hands to [NewRequest]. *)
Definition requestURL (params : downloadParams) : string :=
  GetString (cfg params) "apibaseurl" +:+ "/solutions/"
    +:+ urlParam params.

(** The query that [getDownloadPayload] gives to the URL of the request:
    extended when the uuid is empty, left alone otherwise. *)
Definition buildQuery (params : downloadParams) (url : URL) : URL :=
  if isEmpty (uuid params) then
    let q := Query url in
    let q := Add "exercise_id" (slug params) q in
    let q := if negb (isEmpty (track params))
             then Add "track_id" (track params) q else q in
    let q := if negb (isEmpty (team params))
             then Add "team_id" (team params) q else q in
    mkURL (Location url) q
  else url.

Section Pipeline.

Context {Client Disk : Type}.
Variable E : Collaborators Client Disk.

(** [getDownloadPayload]. *)
Definition getDownloadPayload (params : downloadParams)
    : M Disk downloadPayload :=
  let usrCfg := cfg params in
  let url := requestURL params in
  cl ← NewClient E (GetString usrCfg "token")
         (GetString usrCfg "apibaseurl");
  match cl.2 with
  | Some err => fail err
  | None =>
      let client := cl.1 in
      req ← lift (client_NewRequest E client "GET" url);
      let req := mkRequest (Method req) (buildQuery params (ReqURL req)) in
      res ← Do E client req;
      match json_Decode E (Body res) with
      | inr err => fail ("unable to parse API response - " +:+ err)
      | inl pl =>
          if bool_decide (StatusCode res = StatusUnauthorized) then
            fail ("unauthorized request. Please run the configure command. You can find your API token at "
                  +:+ config_InferSiteURL E (GetString usrCfg "apibaseurl")
                  +:+ "/my/settings")
          else if negb (bool_decide (StatusCode res = StatusOK)) then
            if bool_decide (Error_Type (Error pl) = "track_ambiguous") then
              fail (Error_Message (Error pl) +:+ ": "
                    +:+ Strings.Join (PossibleTrackIDs (Error pl)) ", ")
            else fail (Error_Message (Error pl))
          else ret pl
      end
  end.

(** The location that [writeSolutionFilesFromPayload] builds. *)
Definition exerciseOf (pl : downloadPayload) (usrCfg : gmap string string)
    : Exercise :=
  let root := GetString usrCfg "workspace" in
  let root :=
    if negb (isEmpty (Team_Slug (Solution_Team (Solution pl))))
    then Filepath.Join
           [root; "teams"; Team_Slug (Solution_Team (Solution pl))]
    else root in
  let root :=
    if negb (User_IsRequester (Solution_User (Solution pl)))
    then Filepath.Join
           [root; "users"; User_Handle (Solution_User (Solution pl))]
    else root in
  mkWsExercise root
    (Track_ID (Exercise_Track (Solution_Exercise (Solution pl))))
    (Exercise_ID (Solution_Exercise (Solution pl))).

(** The loop of [writeSolutionFilesFromPayload]. *)
Fixpoint writeFiles (pl : downloadPayload) (usrCfg : gmap string string)
    (files : list string) : M Disk unit :=
  match files with
  | [] => ret tt
  | file :: rest =>
      let unparsedURL := FileDownloadBaseURL (Solution pl) +:+ file in
      parsedURL ← lift (url_ParseRequestURI E unparsedURL);
      cl ← NewClient E (GetString usrCfg "token")
             (GetString usrCfg "apibaseurl");
      let client := cl.1 in
      req ← lift (client_NewRequest E client "GET"
                    (url_String E parsedURL));
      res ← Do E client req;
      if negb (bool_decide (StatusCode res = StatusOK)) then
        writeFiles pl usrCfg rest
      else if bool_decide (Get (Header res) "Content-Length" = "0") then
        writeFiles pl usrCfg rest
      else
        let pattern :=
          legacyPattern (Exercise_ID (Solution_Exercise (Solution pl))) in
        let file :=
          if Regexp.MatchString pattern file
          then Regexp.ReplaceAll pattern file ""
          else file in
        let file := Strings.Replace file "\" "/" in
        let relativePath := Filepath.FromSlash "/" file in
        let metadataDir := ws_MetadataDir E (exerciseOf pl usrCfg) in
        MkdirAll E (Filepath.Join
                      [metadataDir; Filepath.Dir relativePath]);;
        Create E (Filepath.Join [metadataDir; relativePath]);;
        Copy E (Filepath.Join [metadataDir; relativePath]) (Body res);;
        writeFiles pl usrCfg rest
  end.

(** [writeSolutionFilesFromPayload]. *)
Definition writeSolutionFilesFromPayload (pl : downloadPayload)
    (usrCfg : gmap string string) : M Disk unit :=
  if negb (isEmpty (Error_Message (Error pl)))
  then fail (Error_Message (Error pl))
  else writeFiles pl usrCfg (Files (Solution pl)).

End Pipeline.

End Flat.

(** ** The user configuration and the construction of the parameters *)

(** [validateUserConfig]: [binaryName] is the variable [BinaryName],
    [settingsURL] stands for [config.SettingsURL]; the two messages are the
    constants [msgWelcomePleaseConfigure] and [msgRerunConfigure] with
    their arguments filled in. *)
Definition validateUserConfig (binaryName : string)
    (settingsURL : string → string) (cfg : gmap string string) : error :=
  if isEmpty (Flat.GetString cfg "token") then
    Some ("

    Welcome to Exercism!

    To get started, you need to configure the tool with your API token.
    Find your token at

        " +:+ settingsURL (Flat.GetString cfg "apibaseurl") +:+ "

    Then run the configure command:

        " +:+ binaryName +:+ " configure --token=YOUR_TOKEN

")
  else if (isEmpty (Flat.GetString cfg "workspace")
           || isEmpty (Flat.GetString cfg "apibaseurl"))%bool then
    Some ("

    Please re-run the configure command to define where
    to download the exercises.

        " +:+ binaryName +:+ " configure
")
  else None.

(** [downloadParams.setFromConfig]. *)
Definition setFromConfig (d : downloadParams) (usrCfg : gmap string string)
    : downloadParams :=
  mkParams (slug d) (uuid d)
    (Flat.GetString usrCfg "token")
    (Flat.GetString usrCfg "apibaseurl")
    (Flat.GetString usrCfg "workspace")
    (track d) (team d) (fromExercise d) (fromFlags d).

(** [newDownloadParamsFromExercise]: the parameters and the error of their
    validation, both as returned. *)
Definition newDownloadParamsFromExercise (usrCfg : gmap string string)
    (exercise : Exercise) : option downloadParams * error :=
  let d := mkParams (Slug exercise) "" "" "" "" (Track exercise) ""
             true false in
  let d := setFromConfig d usrCfg in
  (Some d, validateParams d).

(** A [pflag.FlagSet], read with [GetString]: the value of a flag, or the
    error of the lookup. *)
Definition FlagSet : Type := string → string + string.

(** [newDownloadParamsFromFlags]: the flags are read in the order uuid,
    exercise, track, team; a failed read returns its error and no
    parameters. *)
Definition newDownloadParamsFromFlags (usrCfg : gmap string string)
    (flags : FlagSet) : option downloadParams * error :=
  let d := mkParams "" "" "" "" "" "" "" false true in
  let d := setFromConfig d usrCfg in
  match flags "uuid" with
  | inr err => (None, Some err)
  | inl uuid' =>
      match flags "exercise" with
      | inr err => (None, Some err)
      | inl slug' =>
          match flags "track" with
          | inr err => (None, Some err)
          | inl track' =>
              match flags "team" with
              | inr err => (None, Some err)
              | inl team' =>
                  let d := mkParams slug' uuid' (token d) (apibaseurl d)
                             (workspace d) track' team'
                             (fromExercise d) (fromFlags d) in
                  (Some d, validateParams d)
              end
          end
      end
  end.

Section Construction.

Context {Client Disk : Type}.
Variable E : Collaborators Client Disk.

(** [newDownloadFromExercise]. *)
Definition newDownloadFromExercise (usrCfg : gmap string string)
    (exercise : Exercise) (w : World Disk)
    : (option download * error) * World Disk :=
  match newDownloadParamsFromExercise usrCfg exercise with
  | (_, Some err) => ((None, Some err), w)
  | (Some downloadParams, None) => newDownload E downloadParams w
  | (None, None) => ((None, None), w)
  end.

(** [newDownloadFromFlags].  As above, the last case does not occur: no
    parameters are missing without an error. *)
Definition newDownloadFromFlags (usrCfg : gmap string string)
    (flags : FlagSet) (w : World Disk)
    : (option download * error) * World Disk :=
  match newDownloadParamsFromFlags usrCfg flags with
  | (_, Some err) => ((None, Some err), w)
  | (Some downloadParams, None) => newDownload E downloadParams w
  | (None, None) => ((None, None), w)
  end.

(** An event that the loop of [writeSolutionFiles] may cause for the
    file names in [files]: a client construction, a request, or a
    directory creation, file creation or copy at the write path of one of
    the names. *)
Definition fileEvent (d : download) (files : list string) (ev : event)
    : Prop :=
  match ev with
  | EvNewClient tok base =>
      tok = token (params d) ∧ base = apibaseurl (params d)
  | EvDo _ => True
  | EvMkdirAll path =>
      ∃ filename, filename ∈ files
        ∧ path = Filepath.Dir
                   (Filepath.Join
                      [destination E d;
                       sanitizeLegacyNumericSuffixFilepath "/" filename
                         (Slug (exercise d))])
  | EvCreate path | EvCopy path _ =>
      ∃ filename, filename ∈ files
        ∧ path = Filepath.Join
                   [destination E d;
                    sanitizeLegacyNumericSuffixFilepath "/" filename
                      (Slug (exercise d))]
  end.

End Construction.

(** The requests among the events. *)
Definition requestsOf (evs : list event) : list Request :=
  omap (λ ev, match ev with EvDo req => Some req | _ => None end) evs.

(** A string without a slash or a backslash. *)
Fixpoint noSeparator (s : string) : bool :=
  match s with
  | EmptyString => true
  | String c s' => (negb (Regexp.slashes c) && noSeparator s')%bool
  end.

(** A string of bytes that all satisfy [p]. *)
Fixpoint allBytes (p : ascii → bool) (s : string) : bool :=
  match s with
  | EmptyString => true
  | String c s' => (p c && allBytes p s')%bool
  end.

(** A string with the byte [c] in it. *)
Fixpoint hasByte (c : ascii) (s : string) : bool :=
  match s with
  | EmptyString => false
  | String c' s' => (Ascii.eqb c' c || hasByte c s')%bool
  end.

(** A byte that the pattern syntax reads as itself: an ASCII letter or
    digit, a hyphen or an underscore. *)
Definition literalByte (c : ascii) : bool :=
  let n := N_of_ascii c in
  ((N.leb 48 n && N.leb n 57) || (N.leb 65 n && N.leb n 90)
   || (N.leb 97 n && N.leb n 122)
   || Ascii.eqb c "-" || Ascii.eqb c "_")%bool.

(** A slug that [legacyPattern] reads as the source's pattern does: all
    its bytes are literal. *)
Definition literalSlug (slug : string) : bool := allBytes literalByte slug.

(** ** Vocabulary of the statements *)

(** Exactly one of slug and uuid is set. *)
Definition slugXorUUID (p : downloadParams) : Prop :=
  (slug p ≠ "" ∧ uuid p = "") ∨ (slug p = "" ∧ uuid p ≠ "").

(** Modelled from the spec: the caller of [getDownloadPayload] that fills
    [urlParam] is not among the sources; the specification gives the
    identifier of the lookup target as the uuid if present, else the
    placeholder for the most recent solution. *)
Definition urlParamOf (uuid : string) : string :=
  if isEmpty uuid then "latest" else uuid.

(** The flat parameters for the inputs of the struct parameters. *)
Definition toFlat (p : downloadParams) : Flat.downloadParams :=
  Flat.mkParams
    (<["token" := token p]>
       (<["apibaseurl" := apibaseurl p]>
          (<["workspace" := workspace p]> ∅)))
    (uuid p) (slug p) (track p) (team p) (urlParamOf (uuid p)).

(** A path element that [filepath.Clean] keeps as it is. *)
Definition plainName (s : string) : bool :=
  (negb (isEmpty s) && negb (Filepath.hasSlash s)
   && negb (bool_decide (s = ".")) && negb (bool_decide (s = "..")))%bool.

(** A directory path in clean form that a name can be appended to with a
    separator: not the root and not ["."]. *)
Definition cleanDir (s : string) : bool :=
  (bool_decide (Filepath.Clean s = s)
   && negb (bool_decide (s = "/")) && negb (bool_decide (s = ".")))%bool.

(** What the buffer of [filepath.Clean] holds, the last element first:
    plain names above the [".."] elements that a relative path starts
    with. *)
Definition cleanStack (rooted : bool) (out : list string) : Prop :=
  ∃ (names : list string) (k : nat),
    out = names ++ replicate k ".."
    ∧ Forall (λ name, plainName name = true) names
    ∧ (rooted = true → k = 0%nat).

(** The names, each after a separator. *)
Fixpoint pathSuffix (names : list string) : string :=
  match names with
  | [] => ""
  | name :: rest => "/" +:+ name +:+ pathSuffix rest
  end.

(** The collaborators with a client construction that reports [err]
    next to the client it returns. *)
Definition withClientError {Client Disk} (err : string)
    (E : Collaborators Client Disk) : Collaborators Client Disk :=
  mkCollaborators Client Disk
    (fun tok base => ((api_NewClient E tok base).1, Some err))
    (client_NewRequest E) (client_Do E) (json_Decode E)
    (url_ParseRequestURI E) (url_String E) (config_InferSiteURL E)
    (ws_MetadataDir E) (os_MkdirAll E) (os_Create E) (io_Copy E).

(** Parameters as the flags [--exercise=bob --track=go] give them. *)
Definition sampleParams : downloadParams :=
  mkParams "bob" "" "secret" "https://api.exercism.io/v1" "/home/alice/exercism"
    "go" "" false true.

(** A download of a team solution that belongs to another user. *)
Definition samplePayload : downloadPayload :=
  mkPayload
    (mkSolution "abc123" "https://exercism.io/solutions/abc123"
       (mkTeam "Acme" "acme") (mkUser "bob" false)
       (mkExercise "exercise" "" false (mkTrack "go" "Go"))
       "https://api.exercism.io/v1/solutions/abc123/files/"
       ["exercise.go"; "README.md"] None)
    (mkError "" "" []).

Definition sampleDownload : download :=
  mkDownload
    (mkParams "" "abc123" "secret" "https://api.exercism.io/v1" "workspace"
       "" "" false true)
    samplePayload.

(** The world after one file request: a client was made and the request
    was sent; the disk is as before. *)
Definition afterRequest {Disk} (w : World Disk) (tok base : string)
    (req : Request) : World Disk :=
  mkWorld (trace w ++ [EvNewClient tok base; EvDo req]) (disk w).

(** Collaborators for the examples: every client construction succeeds,
    the transport answers a request with [serve], every body decodes to
    [pl], and the disk is a map from paths to contents. *)
Definition sampleCollaborators (serve : Request → Response)
    (pl : downloadPayload) : Collaborators unit (gmap string string) :=
  mkCollaborators unit (gmap string string)
    (fun _ _ => (tt, None))
    (fun _ method url => inl (mkRequest method (mkURL url ∅)))
    (fun _ _ req => inl (serve req))
    (fun _ => inl pl)
    (fun url => inl (mkURL url ∅))
    Location
    (fun base => base)
    (fun e => Filepath.Join [Root e; Track e; Slug e])
    (fun dk _ => (dk, None))
    (fun dk path => (<[path := ""]> dk, None))
    (fun dk path body => (<[path := body]> dk, None)).

Definition emptyWorld : World (gmap string string) := mkWorld [] ∅.

(** A transport that has the first file of [samplePayload] and answers
    404 for every other URL. *)
Definition serveFirstFile (req : Request) : Response :=
  if bool_decide (Location (ReqURL req)
                  = "https://api.exercism.io/v1/solutions/abc123/files/exercise.go")
  then mkResponse 200 {["Content-Length" := ["12"]]} "package main"
  else mkResponse 404 ∅ "".

(** A transport that answers every request with the given status. *)
Definition serveStatus (status : Z) (_ : Request) : Response :=
  mkResponse status ∅ "{}".

(** The collaborators with a decoder that fails with [err]. *)
Definition withDecodeError {Client Disk} (err : string)
    (E : Collaborators Client Disk) : Collaborators Client Disk :=
  mkCollaborators Client Disk
    (api_NewClient E) (client_NewRequest E) (client_Do E)
    (fun _ => inr err)
    (url_ParseRequestURI E) (url_String E) (config_InferSiteURL E)
    (ws_MetadataDir E) (os_MkdirAll E) (os_Create E) (io_Copy E).

(** The payload of an answer to a slug that exists in two tracks. *)
Definition ambiguousPayload : downloadPayload :=
  mkPayload (Solution zeroPayload)
    (mkError "track_ambiguous" "exercise slug is not unique" ["go"; "rust"]).

(** A relative path of plain elements, such as ["subdir/file.go"]. *)
Definition plainRelPath (s : string) : bool :=
  forallb plainName (Strings.Split s "/").

(** The collaborators with another URL parser, and with another
    transport. *)
Definition withParser {Client Disk} (parse : string → URL + string)
    (E : Collaborators Client Disk) : Collaborators Client Disk :=
  mkCollaborators Client Disk
    (api_NewClient E) (client_NewRequest E) (client_Do E) (json_Decode E)
    parse
    (url_String E) (config_InferSiteURL E)
    (ws_MetadataDir E) (os_MkdirAll E) (os_Create E) (io_Copy E).

Definition withTransport {Client Disk}
    (transport : list event → Client → Request → Response + string)
    (E : Collaborators Client Disk) : Collaborators Client Disk :=
  mkCollaborators Client Disk
    (api_NewClient E) (client_NewRequest E) transport (json_Decode E)
    (url_ParseRequestURI E)
    (url_String E) (config_InferSiteURL E)
    (ws_MetadataDir E) (os_MkdirAll E) (os_Create E) (io_Copy E).

(** A parser that refuses the empty string and a URL with a space. *)
Definition strictParse (url : string) : URL + string :=
  if bool_decide (url = "") then inr "empty url"
  else if hasByte " " url then inr "invalid character in URL"
  else inl (mkURL url ∅).

(** A transport that loses the connection on the second file of
    [samplePayload] and serves the first. *)
Definition flakyTransport (_ : list event) (_ : unit) (req : Request)
    : Response + string :=
  if bool_decide (Location (ReqURL req)
                  = "https://api.exercism.io/v1/solutions/abc123/files/README.md")
  then inr "connection reset by peer"
  else inl (serveFirstFile req).

Definition flakyCollaborators : Collaborators unit (gmap string string) :=
  withTransport flakyTransport
    (withParser strictParse
       (sampleCollaborators serveFirstFile samplePayload)).

(** Collaborators with the strict parser and a transport that answers
    every request with a 404. *)
Definition notFoundCollaborators : Collaborators unit (gmap string string) :=
  withParser strictParse
    (sampleCollaborators (serveStatus 404) samplePayload).

(** * Properties *)

(** ** Legacy path sanitization *)

Example sanitize_nested :
  sanitizeLegacyNumericSuffixFilepath "/" "/bogus-track/bogus-exercise-12345/subdir/numeric.txt" "bogus-exercise"
  = "subdir/numeric.txt".
Proof. vm_compute. reflexivity. Qed.

Lemma sanitize_flat_inline (file id : string) :
  sanitizeLegacyNumericSuffixFilepath "/" file id
  = Filepath.FromSlash "/"
      (Strings.Replace
         (if Regexp.MatchString (legacyPattern id) file
          then Regexp.ReplaceAll (legacyPattern id) file ""
          else file) "\" "/").
Proof. reflexivity. Qed.

(** Counterexample to C1 as stated: the pattern asks for a slash or backslash in
    front of the slug, so ["exercise-2/foo/bar.rb"], which starts with the
    slug, is not stripped. *)
Lemma sanitize_unrooted_suffix_dir_kept :
  sanitizeLegacyNumericSuffixFilepath "/" "exercise-2/foo/bar.rb" "exercise"
  ≠ Filepath.FromSlash "/" "foo/bar.rb".
Proof. vm_compute. discriminate. Qed.

(** C1 (amended): for the slug ["exercise"], the file name
    ["/exercise-2/foo/bar.rb"], where a separator stands in front of the
    numeric-suffixed directory, is sanitized to ["foo/bar.rb"] in the
    separators of the host; ["exercise-2/foo/bar.rb"] has no such separator
    and only has its separators converted. *)
Theorem sanitize_legacy_numeric_suffix (sep : ascii) :
  sanitizeLegacyNumericSuffixFilepath sep "/exercise-2/foo/bar.rb" "exercise"
  = Filepath.FromSlash sep "foo/bar.rb"
  ∧ sanitizeLegacyNumericSuffixFilepath sep "exercise-2/foo/bar.rb" "exercise"
    = Filepath.FromSlash sep "exercise-2/foo/bar.rb".
Proof. split; reflexivity. Qed.

(** ** Validation of the parameters *)

Lemma needsSlugXorUUID_None (p : downloadParams) :
  needsSlugXorUUID p = None ↔ slugXorUUID p.
Proof.
  unfold needsSlugXorUUID, slugXorUUID, isEmpty.
  destruct (decide (slug p = "")) as [Hs|Hs],
           (decide (uuid p = "")) as [Hu|Hu].
  - rewrite (bool_decide_eq_true_2 (uuid p = slug p)) by congruence.
    rewrite orb_true_r. destruct (fromFlags p); split; try discriminate;
      intros [[? ?]|[? ?]]; congruence.
  - rewrite (bool_decide_eq_true_2 (slug p = "")) by assumption.
    rewrite (bool_decide_eq_false_2 (uuid p = slug p)) by congruence.
    simpl. split; [right; auto | reflexivity].
  - rewrite (bool_decide_eq_true_2 (uuid p = "")) by assumption.
    rewrite (bool_decide_eq_false_2 (uuid p = slug p)) by congruence.
    rewrite andb_false_r. simpl. split; [left; auto | reflexivity].
  - rewrite !bool_decide_eq_false_2 by assumption. simpl.
    destruct (fromFlags p); split; try discriminate;
      intros [[? ?]|[? ?]]; congruence.
Qed.

(** Validated parameters have exactly one of slug and uuid set. *)
Lemma validateParams_slugXorUUID (p : downloadParams) :
  validateParams p = None → slugXorUUID p.
Proof.
  intros Hv. apply needsSlugXorUUID_None. unfold validateParams in Hv.
  by destruct (needsSlugXorUUID p).
Qed.

(** C3: when slug and uuid are both set or both empty, validation fails
    with the need-an-identifier error, whatever the other fields hold;
    an error of the slug/uuid rule is the error of the validation, the
    other rules are not consulted. *)
Theorem validate_slug_xor_uuid_first (p : downloadParams) :
  ((slug p ≠ "" ∧ uuid p ≠ "") ∨ (slug p = "" ∧ uuid p = "")
   → validateParams p
     = Some (if fromFlags p
             then "need an --exercise name or a solution --uuid"
             else "need a 'slug' or a 'uuid'"))
  ∧ (∀ err, needsSlugXorUUID p = Some err → validateParams p = Some err).
Proof.
  split.
  - intros H. unfold validateParams, needsSlugXorUUID, isEmpty.
    destruct H as [[Hs Hu]|[Hs Hu]].
    + rewrite !bool_decide_eq_false_2 by assumption. simpl.
      destruct (fromFlags p); reflexivity.
    + rewrite (bool_decide_eq_true_2 (uuid p = slug p)) by congruence.
      rewrite orb_true_r. destruct (fromFlags p); reflexivity.
  - intros err H. unfold validateParams. rewrite H. reflexivity.
Qed.

Lemma validate_slug_xor_uuid_first_witness :
  validateParams (mkParams "bob" "abc123" "" "" "" "go" "" false true)
  = Some "need an --exercise name or a solution --uuid".
Proof.
  apply (proj1 (validate_slug_xor_uuid_first
                  (mkParams "bob" "abc123" "" "" "" "go" "" false true))).
  left. split; discriminate.
Defined.

(** ** Request construction *)

Lemma lookup_Add_eq (key value : string) (q : Values) :
  Add key value q !! key = Some (default [] (q !! key) ++ [value]).
Proof. unfold Add. apply lookup_insert_eq. Qed.

Lemma lookup_Add_ne (key key' value : string) (q : Values) :
  key ≠ key' → Add key value q !! key' = q !! key'.
Proof. intros Hne. unfold Add. by apply lookup_insert_ne. Qed.

(** What [buildQuery] leaves under the key [exercise_id] when a slug is
    set: the slug, after the values that were there. *)
Lemma buildQuery_exercise_id (d : download) (url : URL) :
  slug (params d) ≠ "" →
  Query (buildQuery d url) !! "exercise_id"
  = Some (default [] (Query url !! "exercise_id") ++ [slug (params d)]).
Proof.
  intros Hs. unfold buildQuery, isEmpty.
  rewrite (bool_decide_eq_false_2 _ Hs). simpl.
  repeat case_bool_decide; simpl;
    rewrite ?lookup_Add_ne by discriminate; apply lookup_Add_eq.
Qed.

Lemma toFlat_token (p : downloadParams) :
  Flat.GetString (Flat.cfg (toFlat p)) "token" = token p.
Proof. reflexivity. Qed.

Lemma toFlat_apibaseurl (p : downloadParams) :
  Flat.GetString (Flat.cfg (toFlat p)) "apibaseurl" = apibaseurl p.
Proof. reflexivity. Qed.

Lemma flat_requestURL (p : downloadParams) (pl : downloadPayload) :
  Flat.requestURL (toFlat p) = requestURL (mkDownload p pl).
Proof.
  unfold Flat.requestURL, requestURL. rewrite toFlat_apibaseurl.
  cbn [Flat.urlParam toFlat params]. unfold urlParamOf.
  by destruct (isEmpty (uuid p)).
Qed.

Lemma flat_buildQuery (p : downloadParams) (pl : downloadPayload) (url : URL) :
  slugXorUUID p →
  Flat.buildQuery (toFlat p) url = buildQuery (mkDownload p pl) url.
Proof.
  intros Hxor. unfold Flat.buildQuery, buildQuery, isEmpty.
  cbn [toFlat Flat.uuid Flat.slug Flat.track Flat.team params].
  destruct Hxor as [[Hs Hu]|[Hs Hu]].
  - rewrite (bool_decide_eq_true_2 _ Hu), (bool_decide_eq_false_2 _ Hs).
    cbn [negb]. by repeat case_bool_decide.
  - rewrite (bool_decide_eq_false_2 _ Hu), (bool_decide_eq_true_2 _ Hs).
    by destruct url.
Qed.

(** C4: the lookup target is [{apibaseurl}/solutions/latest] when the uuid
    is empty and [{apibaseurl}/solutions/{uuid}] otherwise; [buildQuery]
    changes the query of the request if and only if the slug is set, and
    on a URL without a query it then leaves [exercise_id] with the slug,
    [track_id] and [team_id] with the track and the team when these are
    set, and nothing else.  The flat pipeline, whose identifier is filled
    in by its caller and whose query is gated on the uuid, builds the same
    target and query for parameters with exactly one of slug and uuid
    set. *)
Theorem request_target_and_query (d : download) :
  (uuid (params d) = ""
   → requestURL d = apibaseurl (params d) +:+ "/solutions/latest")
  ∧ (uuid (params d) ≠ ""
     → requestURL d
       = apibaseurl (params d) +:+ "/solutions/" +:+ uuid (params d))
  ∧ (∀ url, buildQuery d url = url ↔ slug (params d) = "")
  ∧ (∀ loc,
       let q := Query (buildQuery d (mkURL loc ∅)) in
       (q = ∅ ↔ slug (params d) = "")
       ∧ (slug (params d) ≠ ""
          → q !! "exercise_id" = Some [slug (params d)]
            ∧ q !! "track_id"
              = (if isEmpty (track (params d)) then None
                 else Some [track (params d)])
            ∧ q !! "team_id"
              = (if isEmpty (team (params d)) then None
                 else Some [team (params d)])
            ∧ ∀ key, key ≠ "exercise_id" → key ≠ "track_id"
                     → key ≠ "team_id" → q !! key = None))
  ∧ (slugXorUUID (params d)
     → Flat.requestURL (toFlat (params d)) = requestURL d
       ∧ ∀ url, Flat.buildQuery (toFlat (params d)) url = buildQuery d url).
Proof.
  assert (Hiff : ∀ url, buildQuery d url = url ↔ slug (params d) = "").
  { intros url. split.
    - intros Heq. destruct (decide (slug (params d) = "")) as [|Hs]; [done|].
      exfalso. pose proof (buildQuery_exercise_id d url Hs) as Hq.
      rewrite Heq in Hq.
      destruct (Query url !! "exercise_id") as [vs|]; simpl in Hq;
        [|discriminate].
      injection Hq as Hq. apply (f_equal length) in Hq.
      rewrite length_app in Hq. simpl in Hq. lia.
    - intros Hs. unfold buildQuery, isEmpty.
      rewrite (bool_decide_eq_true_2 _ Hs). by destruct url. }
  split; [|split; [|split; [exact Hiff|split]]].
  - intros Hu. unfold requestURL, isEmpty.
    by rewrite (bool_decide_eq_true_2 _ Hu).
  - intros Hu. unfold requestURL, isEmpty.
    by rewrite (bool_decide_eq_false_2 _ Hu).
  - intros loc q. split; [split|].
    + intros Hq. apply (Hiff (mkURL loc ∅)).
      subst q. destruct (buildQuery d (mkURL loc ∅)) as [l q'] eqn:Hb.
      simpl in Hq. subst q'. f_equal.
      unfold buildQuery in Hb. by injection Hb.
    + intros Hs. apply (Hiff (mkURL loc ∅)) in Hs. subst q. by rewrite Hs.
    + intros Hs. subst q. split.
      { rewrite buildQuery_exercise_id by assumption.
        cbn [Query]. by rewrite lookup_empty. }
      unfold buildQuery, isEmpty. rewrite (bool_decide_eq_false_2 _ Hs).
      cbn [negb Query].
      split; [|split].
      * repeat case_bool_decide; cbn [negb];
          rewrite ?lookup_Add_ne by discriminate;
          rewrite ?lookup_Add_eq, ?lookup_Add_ne by discriminate;
          rewrite ?lookup_empty; done.
      * repeat case_bool_decide; cbn [negb];
          rewrite ?lookup_Add_eq, ?lookup_Add_ne by discriminate;
          rewrite ?lookup_Add_eq, ?lookup_Add_ne by discriminate;
          rewrite ?lookup_empty; done.
      * intros key H1 H2 H3.
        repeat case_bool_decide; cbn [negb];
          rewrite ?lookup_Add_ne by congruence; apply lookup_empty.
  - intros Hxor. destruct d as [p pl]. cbn [params] in *. split.
    + apply flat_requestURL.
    + intros url. by apply flat_buildQuery.
Qed.

Lemma request_target_and_query_witness :
  requestURL (mkDownload sampleParams zeroPayload)
  = "https://api.exercism.io/v1/solutions/latest"
  ∧ Query (buildQuery (mkDownload sampleParams zeroPayload) (mkURL "" ∅))
    !! "exercise_id" = Some ["bob"]
  ∧ Flat.requestURL (toFlat sampleParams)
    = requestURL (mkDownload sampleParams zeroPayload).
Proof.
  destruct (request_target_and_query (mkDownload sampleParams zeroPayload))
    as (Hlatest & _ & _ & Hquery & Hflat).
  split; [|split].
  - apply Hlatest. reflexivity.
  - destruct (Hquery "") as [_ Hset]. apply Hset. discriminate.
  - apply Hflat. left. split; [discriminate | reflexivity].
Defined.

(** ** The two pipelines *)

(** C2: for parameters with exactly one of slug and uuid set, the flat
    pipeline builds the request of the struct pipeline: the same URL and,
    on every URL, the same query; and [getDownloadPayload] then acts on
    the collaborators and answers as the fetching part of [newDownload]
    does, which in addition validates the payload it returns. *)
Theorem pipelines_build_same_request
    (p : downloadParams) (pl : downloadPayload) :
  slugXorUUID p →
  Flat.requestURL (toFlat p) = requestURL (mkDownload p pl)
  ∧ (∀ url, Flat.buildQuery (toFlat p) url
            = buildQuery (mkDownload p pl) url)
  ∧ (∀ (Client Disk : Type) (E : Collaborators Client Disk) (w : World Disk),
       fetchPayload E p w
       = match Flat.getDownloadPayload E (toFlat p) w with
         | (Ok pl', w') =>
             (Ok (mkDownload p pl', validate (mkDownload p pl')), w')
         | (Err msg, w') => (Err msg, w')
         end).
Proof.
  intros Hxor. split; [apply flat_requestURL|].
  split; [intros url; by apply flat_buildQuery|].
  intros Client Disk E w.
  unfold fetchPayload, Flat.getDownloadPayload.
  rewrite toFlat_token, toFlat_apibaseurl.
  rewrite (flat_requestURL p zeroPayload).
  unfold mbind, M_bind, bind.
  destruct (NewClient E (token p) (apibaseurl p) w)
    as [[[client [err|]]|msg] w1]; cbn [fst snd]; [reflexivity| |reflexivity].
  destruct (lift (client_NewRequest E client "GET"
                    (requestURL (mkDownload p zeroPayload))) w1)
    as [[req|msg] w2]; [|reflexivity].
  rewrite (flat_buildQuery p zeroPayload (ReqURL req) Hxor).
  destruct (Do E client _ w2) as [[res|msg] w3]; [|reflexivity].
  destruct (json_Decode E (Body res)) as [pl'|msg]; [|reflexivity].
  repeat case_bool_decide; reflexivity.
Qed.

Lemma pipelines_build_same_request_witness :
  Flat.requestURL (toFlat sampleParams)
  = requestURL (mkDownload sampleParams zeroPayload)
  ∧ Flat.buildQuery (toFlat sampleParams) (mkURL "" ∅)
    = buildQuery (mkDownload sampleParams zeroPayload) (mkURL "" ∅).
Proof.
  destruct (pipelines_build_same_request sampleParams zeroPayload)
    as (Hurl & Hquery & _).
  - left. split; [discriminate | reflexivity].
  - split; [exact Hurl | exact (Hquery (mkURL "" ∅))].
Defined.

(** ** Paths *)

Section PathLemmas.

Lemma string_app_cons (c : ascii) (s t : string) :
  String c s +:+ t = String c (s +:+ t).
Proof. reflexivity. Qed.

Lemma string_app_nil_r (s : string) : s +:+ "" = s.
Proof. induction s as [|c s IH]; [done|]. by rewrite string_app_cons, IH. Qed.

Lemma string_app_assoc (s t u : string) : (s +:+ t) +:+ u = s +:+ t +:+ u.
Proof. induction s as [|c s IH]; [done|]. by rewrite !string_app_cons, IH. Qed.

Lemma Split_nonempty (s : string) : Strings.Split s "/" ≠ [].
Proof.
  destruct s as [|c s]; simpl; [done|].
  destruct (Ascii.eqb c "/"); [done|].
  by destruct (Strings.Split s "/").
Qed.

(** The fields of [a/b] are the fields of [a], then those of [b]. *)
Lemma Split_app (a b : string) :
  Strings.Split (a +:+ String "/" b) "/"
  = Strings.Split a "/" ++ Strings.Split b "/".
Proof.
  induction a as [|c a IH]; [reflexivity|].
  rewrite string_app_cons. simpl. destruct (Ascii.eqb c "/").
  - by rewrite IH.
  - rewrite IH. pose proof (Split_nonempty a) as Hne.
    by destruct (Strings.Split a "/").
Qed.

Lemma Split_plain (name : string) :
  Filepath.hasSlash name = false → Strings.Split name "/" = [name].
Proof.
  induction name as [|c name IH]; [reflexivity|].
  simpl. destruct (Ascii.eqb c "/"); [discriminate|].
  simpl. intros H. by rewrite IH.
Qed.

Lemma plainName_hasSlash (name : string) :
  plainName name = true → Filepath.hasSlash name = false.
Proof.
  unfold plainName. intros H.
  destruct (Filepath.hasSlash name); [|done].
  by rewrite andb_false_r in H.
Qed.

Lemma Split_names (a : string) (names : list string) :
  Forall (λ name, plainName name = true) names →
  Strings.Split (a +:+ pathSuffix names) "/"
  = Strings.Split a "/" ++ names.
Proof.
  intros Hnames. revert a.
  induction Hnames as [|name names Hname _ IH]; intros a.
  - simpl. by rewrite string_app_nil_r, (right_id_L [] (++)).
  - cbn [pathSuffix]. change ("/" +:+ ?x) with (String "/" x).
    rewrite Split_app, IH.
    by rewrite (Split_plain name (plainName_hasSlash _ Hname)).
Qed.

Lemma cleanStep_plain (rooted : bool) (out : list string) (name : string) :
  plainName name = true → Filepath.cleanStep rooted out name = name :: out.
Proof.
  unfold plainName, Filepath.cleanStep, isEmpty. intros H.
  repeat case_bool_decide; simpl in H;
    rewrite ?andb_false_r in H; done.
Qed.

Lemma foldl_cleanStep_names (rooted : bool) (names out : list string) :
  Forall (λ name, plainName name = true) names →
  foldl (Filepath.cleanStep rooted) out names = reverse names ++ out.
Proof.
  intros Hnames. revert out.
  induction Hnames as [|name names Hname _ IH]; intros out; [done|].
  simpl. rewrite cleanStep_plain by done. rewrite IH, reverse_cons.
  by rewrite <- (assoc_L (++)).
Qed.

Lemma Join_cons (e : string) (names : list string) :
  Strings.Join (e :: names) "/" = e +:+ pathSuffix names.
Proof.
  revert e. induction names as [|name names IH]; intros e.
  - simpl. by rewrite string_app_nil_r.
  - change (Strings.Join (e :: name :: names) "/")
      with (e +:+ "/" +:+ Strings.Join (name :: names) "/").
    by rewrite IH.
Qed.

Lemma Join_app_names (elems names : list string) :
  elems ≠ [] →
  Strings.Join (elems ++ names) "/"
  = Strings.Join elems "/" +:+ pathSuffix names.
Proof.
  induction elems as [|e elems IH]; [done|]. intros _.
  destruct elems as [|e' elems].
  - apply Join_cons.
  - change (Strings.Join ((e :: e' :: elems) ++ names) "/")
      with (e +:+ "/" +:+ Strings.Join ((e' :: elems) ++ names) "/").
    rewrite IH by done.
    change (Strings.Join (e :: e' :: elems) "/")
      with (e +:+ "/" +:+ Strings.Join (e' :: elems) "/").
    by rewrite !string_app_assoc.
Qed.

Lemma isRooted_app (s t : string) :
  s ≠ "" → Filepath.isRooted (s +:+ t) = Filepath.isRooted s.
Proof. by destruct s. Qed.

Lemma Clean_nonempty (path : string) :
  path ≠ "" →
  Filepath.Clean path
  = Filepath.render (Filepath.isRooted path)
      (foldl (Filepath.cleanStep (Filepath.isRooted path)) []
         (Strings.Split path "/")).
Proof.
  intros Hne. unfold Filepath.Clean. by rewrite (bool_decide_eq_false_2 _ Hne).
Qed.

Lemma render_app_names (rooted : bool) (out names : list string) :
  out ≠ [] →
  Filepath.render rooted (reverse names ++ out)
  = Filepath.render rooted out +:+ pathSuffix names.
Proof.
  intros Hout. unfold Filepath.render.
  assert (Hrev : reverse out ≠ []).
  { destruct out as [|e out]; [done|]. rewrite reverse_cons.
    by destruct (reverse out). }
  assert (Hjoin : Strings.Join (reverse (reverse names ++ out)) "/"
                  = Strings.Join (reverse out) "/" +:+ pathSuffix names).
  { by rewrite reverse_app, reverse_involutive, Join_app_names. }
  destruct rooted; [by rewrite Hjoin, string_app_assoc|].
  rewrite Hjoin. destruct out as [|e out]; [done|].
  by destruct (reverse names).
Qed.

(** Appending plain names to a clean directory gives a clean path. *)
Lemma Clean_append_names (ws : string) (names : list string) :
  cleanDir ws = true →
  Forall (λ name, plainName name = true) names →
  Filepath.Clean (ws +:+ pathSuffix names) = ws +:+ pathSuffix names.
Proof.
  unfold cleanDir. intros Hws Hnames.
  apply andb_prop in Hws as [Hws Hdot]. apply andb_prop in Hws as [Hws Hroot].
  apply bool_decide_eq_true_1 in Hws.
  apply negb_true_iff, bool_decide_eq_false_1 in Hdot.
  apply negb_true_iff, bool_decide_eq_false_1 in Hroot.
  assert (Hne : ws ≠ "") by (intros ->; discriminate).
  assert (Hne' : ws +:+ pathSuffix names ≠ "") by (by destruct ws).
  rewrite (Clean_nonempty _ Hne').
  rewrite (Clean_nonempty _ Hne) in Hws.
  rewrite isRooted_app by done.
  rewrite Split_names by done. rewrite foldl_app.
  rewrite (foldl_cleanStep_names _ names) by done.
  rewrite render_app_names; [by rewrite Hws|].
  intros Hnil. rewrite Hnil in Hws.
  destruct (Filepath.isRooted ws); [by apply Hroot | by apply Hdot].
Qed.

(** [filepath.Join] of a clean directory and plain names. *)
Lemma Join_clean_names (ws : string) (names : list string) :
  cleanDir ws = true →
  Forall (λ name, plainName name = true) names →
  Filepath.Join (ws :: names) = ws +:+ pathSuffix names.
Proof.
  intros Hws Hnames.
  assert (Hne : ws ≠ "").
  { intros ->. by vm_compute in Hws. }
  cbn [Filepath.Join]. rewrite (bool_decide_eq_false_2 _ Hne).
  rewrite Join_cons. by apply Clean_append_names.
Qed.

Lemma cleanDir_append_names (ws : string) (names : list string) :
  cleanDir ws = true →
  Forall (λ name, plainName name = true) names →
  cleanDir (ws +:+ pathSuffix names) = true.
Proof.
  intros Hws Hnames. destruct names as [|name names].
  { simpl. by rewrite string_app_nil_r. }
  unfold cleanDir. rewrite Clean_append_names by done.
  rewrite bool_decide_eq_true_2 by done.
  apply andb_prop in Hws as [Hws Hdot]. apply andb_prop in Hws as [Hws Hroot].
  assert (Hne : ws ≠ "").
  { intros ->. by vm_compute in Hws. }
  destruct ws as [|c ws]; [done|].
  cbn [pathSuffix]. rewrite string_app_cons.
  rewrite !bool_decide_eq_false_2; [done| |].
  - intros [= _ H]. destruct ws; discriminate.
  - intros [= _ H]. destruct ws; [discriminate|].
    destruct ws; discriminate.
Qed.

(** *** The buffer of [Clean] *)

Lemma Split_noSlash (s : string) :
  Forall (λ field, Filepath.hasSlash field = false) (Strings.Split s "/").
Proof.
  induction s as [|c s IH]; [by repeat constructor|].
  simpl. destruct (Ascii.eqb c "/") eqn:Hc; [by constructor|].
  destruct (Strings.Split s "/") as [|f fs]; [by repeat constructor; simpl; rewrite Hc|].
  inversion IH as [|? ? Hf Hfs]; subst. constructor; [|done].
  simpl. by rewrite Hc, Hf.
Qed.

Lemma Split_Join (elems : list string) :
  elems ≠ [] →
  Forall (λ field, Filepath.hasSlash field = false) elems →
  Strings.Split (Strings.Join elems "/") "/" = elems.
Proof.
  induction elems as [|e elems IH]; [done|]. intros _ Hall.
  inversion Hall as [|? ? He Helems]; subst.
  destruct elems as [|e' elems]; [by apply Split_plain|].
  change (Strings.Join (e :: e' :: elems) "/")
    with (e +:+ String "/" (Strings.Join (e' :: elems) "/")).
  rewrite Split_app, IH by done. by rewrite (Split_plain e He).
Qed.

Lemma field_cases (field : string) :
  Filepath.hasSlash field = false →
  field = "" ∨ field = "." ∨ field = ".." ∨ plainName field = true.
Proof.
  intros Hs. unfold plainName, isEmpty. rewrite Hs.
  destruct (decide (field = "")) as [|H1]; [by left|].
  destruct (decide (field = ".")) as [|H2]; [by right; left|].
  destruct (decide (field = "..")) as [|H3]; [by right; right; left|].
  right; right; right. by rewrite !bool_decide_eq_false_2.
Qed.

Lemma plainName_not_dotdot (name : string) :
  plainName name = true → name ≠ "..".
Proof. by intros H ->. Qed.

Lemma cleanStack_nil (rooted : bool) : cleanStack rooted [].
Proof. exists [], 0%nat. by repeat split. Qed.

Lemma cleanStep_cleanStack (rooted : bool) (out : list string)
    (field : string) :
  Filepath.hasSlash field = false →
  cleanStack rooted out → cleanStack rooted (Filepath.cleanStep rooted out field).
Proof.
  intros Hs (names & k & -> & Hnames & Hk).
  destruct (field_cases field Hs) as [->|[->|[->|Hplain]]].
  - exists names, k. by repeat split.
  - exists names, k. by repeat split.
  - unfold Filepath.cleanStep.
    rewrite (bool_decide_eq_false_2 (".." = "")) by done.
    rewrite (bool_decide_eq_false_2 (".." = ".")) by done.
    rewrite (bool_decide_eq_true_2 (".." = "..")) by done.
    destruct names as [|name names].
    + destruct k as [|k]; cbn [app replicate].
      * destruct rooted; [apply cleanStack_nil|].
        exists [], 1%nat. by repeat split.
      * rewrite (bool_decide_eq_true_2 (".." = "..")) by done.
        exists [], (S (S k)). repeat split; [done|].
        intros Hr. by specialize (Hk Hr).
    + inversion Hnames as [|? ? Hname Hnames']; subst.
      rewrite <- app_comm_cons.
      rewrite (bool_decide_eq_false_2 _ (plainName_not_dotdot _ Hname)).
      exists names, k. by repeat split.
  - rewrite cleanStep_plain by done.
    exists (field :: names), k. repeat split; [|done]. by constructor.
Qed.

Lemma foldl_cleanStack (rooted : bool) (fields out : list string) :
  Forall (λ field, Filepath.hasSlash field = false) fields →
  cleanStack rooted out →
  cleanStack rooted (foldl (Filepath.cleanStep rooted) out fields).
Proof.
  intros Hfields. revert out.
  induction Hfields as [|field fields Hfield _ IH]; intros out Hout; [done|].
  simpl. apply IH. by apply cleanStep_cleanStack.
Qed.

Lemma foldl_dotdots (k j : nat) :
  foldl (Filepath.cleanStep false) (replicate j "..") (replicate k "..")
  = replicate (k + j) "..".
Proof.
  revert j. induction k as [|k IH]; intros j; [done|].
  simpl. replace (Filepath.cleanStep false (replicate j "..") "..")
    with (replicate (S j) "..").
  - rewrite IH. by replace (k + S j)%nat with (S (k + j)) by lia.
  - by destruct j.
Qed.

(** Cleaning the elements of a buffer gives the buffer back. *)
Lemma foldl_reverse_cleanStack (rooted : bool) (out : list string) :
  cleanStack rooted out →
  foldl (Filepath.cleanStep rooted) [] (reverse out) = out.
Proof.
  intros (names & k & -> & Hnames & Hk).
  rewrite reverse_app, reverse_replicate, foldl_app.
  assert (Hdots : foldl (Filepath.cleanStep rooted) [] (replicate k "..")
                  = replicate k "..").
  { destruct rooted.
    - by rewrite Hk.
    - change [] with (replicate 0 "..") at 1.
      rewrite (foldl_dotdots k 0). f_equal. lia. }
  rewrite Hdots, foldl_cleanStep_names.
  - by rewrite reverse_involutive.
  - by apply Forall_reverse.
Qed.

Lemma cleanStack_noSlash (rooted : bool) (out : list string) :
  cleanStack rooted out →
  Forall (λ field, Filepath.hasSlash field = false ∧ field ≠ "") out.
Proof.
  intros (names & k & -> & Hnames & _). apply Forall_app. split.
  - eapply Forall_impl; [exact Hnames|]. intros name Hname. split.
    + by apply plainName_hasSlash.
    + by intros ->.
  - apply Forall_replicate. by split.
Qed.

Lemma isRooted_noSlash (field : string) :
  Filepath.hasSlash field = false → Filepath.isRooted field = false.
Proof.
  destruct field as [|c field]; [done|]. simpl.
  by destruct (Ascii.eqb c "/").
Qed.

Lemma render_relative (out : list string) :
  out ≠ [] →
  Forall (λ field, Filepath.hasSlash field = false ∧ field ≠ "") out →
  ∃ (field : string) (names : list string),
    field ≠ "" ∧ Filepath.hasSlash field = false
    ∧ Filepath.render false out = field +:+ pathSuffix names
    ∧ reverse out = field :: names.
Proof.
  intros Hne Hall.
  assert (Hrev : Forall (λ field, Filepath.hasSlash field = false ∧ field ≠ "")
                   (reverse out)) by (by apply Forall_reverse).
  destruct (reverse out) as [|field names] eqn:Heq.
  { exfalso. apply Hne. apply (f_equal reverse) in Heq.
    by rewrite reverse_involutive in Heq. }
  inversion Hrev as [|? ? [Hs Hf] _]; subst.
  exists field, names. repeat split; [done..|].
  unfold Filepath.render. rewrite Heq, Join_cons. by destruct out.
Qed.

Lemma render_nonempty (rooted : bool) (out : list string) :
  cleanStack rooted out → Filepath.render rooted out ≠ "".
Proof.
  intros Hout. destruct rooted; [done|].
  destruct out as [|e out]; [done|].
  destruct (render_relative (e :: out)) as (field & names & Hf & _ & -> & _);
    [done|by eapply cleanStack_noSlash|].
  by destruct field.
Qed.

Lemma isRooted_render (rooted : bool) (out : list string) :
  cleanStack rooted out →
  Filepath.isRooted (Filepath.render rooted out) = rooted.
Proof.
  intros Hout. destruct rooted; [done|].
  destruct out as [|e out]; [done|].
  destruct (render_relative (e :: out)) as (field & names & Hf & Hs & -> & _);
    [done|by eapply cleanStack_noSlash|].
  rewrite isRooted_app by done. by apply isRooted_noSlash.
Qed.

(** Cleaning a cleaned path gives the same buffer. *)
Lemma foldl_Split_render (rooted : bool) (out : list string) :
  cleanStack rooted out →
  foldl (Filepath.cleanStep rooted) [] (Strings.Split (Filepath.render rooted out) "/")
  = out.
Proof.
  intros Hout.
  pose proof (cleanStack_noSlash _ _ Hout) as Hall.
  destruct out as [|e out].
  { by destruct rooted. }
  assert (Hsplit : Strings.Split (Strings.Join (reverse (e :: out)) "/") "/"
                   = reverse (e :: out)).
  { apply Split_Join.
    - rewrite reverse_cons. by destruct (reverse out).
    - apply Forall_reverse. eapply Forall_impl; [exact Hall|]. by intros ? [? ?]. }
  destruct rooted.
  - unfold Filepath.render.
    change ("/" +:+ ?x) with ("" +:+ String "/" x).
    rewrite Split_app, Hsplit. simpl Strings.Split.
    change (foldl ?f [] ([""] ++ ?l)) with (foldl f [] l).
    by apply foldl_reverse_cleanStack.
  - unfold Filepath.render. rewrite Hsplit.
    by apply foldl_reverse_cleanStack.
Qed.

Lemma Clean_not_empty (path : string) : Filepath.Clean path ≠ "".
Proof.
  destruct (decide (path = "")) as [->|Hne]; [done|].
  rewrite Clean_nonempty by done. apply render_nonempty.
  apply foldl_cleanStack; [apply Split_noSlash | apply cleanStack_nil].
Qed.

(** Cleaning the directory first does not change the cleaned path. *)
Lemma Clean_Clean_app (a b : string) :
  a ≠ "" →
  Filepath.Clean (Filepath.Clean a +:+ String "/" b)
  = Filepath.Clean (a +:+ String "/" b).
Proof.
  intros Hne.
  assert (Hout : cleanStack (Filepath.isRooted a)
                   (foldl (Filepath.cleanStep (Filepath.isRooted a)) []
                      (Strings.Split a "/"))).
  { apply foldl_cleanStack; [apply Split_noSlash | apply cleanStack_nil]. }
  rewrite (Clean_nonempty a Hne).
  set (out := foldl _ [] (Strings.Split a "/")) in *.
  pose proof (render_nonempty _ _ Hout) as Hr.
  rewrite !Clean_nonempty.
  - rewrite !isRooted_app by done. rewrite isRooted_render by done.
    rewrite !Split_app, !foldl_app. by rewrite foldl_Split_render.
  - by destruct a.
  - by destruct (Filepath.render (Filepath.isRooted a) out).
Qed.

End PathLemmas.

(** ** The destination root *)

Example solutionRoot_trailing_separator :
  solutionRoot
    (mkDownload
       (mkParams "" "abc123" "secret" "https://api.exercism.io/v1"
          "/home/alice/exercism/" "" "" false true)
       samplePayload)
  = "/home/alice/exercism/teams/acme/users/bob".
Proof. vm_compute. reflexivity. Qed.

Lemma Join_first (e : string) (names : list string) :
  e ≠ "" → Filepath.Join (e :: names) = Filepath.Clean (e +:+ pathSuffix names).
Proof.
  intros Hne. cbn [Filepath.Join]. rewrite (bool_decide_eq_false_2 _ Hne).
  by rewrite Join_cons.
Qed.

(** The root in general: the workspace when nothing is appended, else
    the clean form of the workspace with the parts appended. *)
Lemma solutionRoot_clean (d : download) :
  workspace (params d) ≠ "" →
  solutionRoot d
  = if (isTeamSolution d || solutionBelongsToOtherUser d)%bool
    then Filepath.Clean
           (workspace (params d)
            +:+ (if isTeamSolution d
                 then "/teams/"
                      +:+ Team_Slug (Solution_Team (Solution (payload d)))
                 else "")
            +:+ (if solutionBelongsToOtherUser d
                 then "/users/"
                      +:+ User_Handle (Solution_User (Solution (payload d)))
                 else ""))
    else workspace (params d).
Proof.
  intros Hws. unfold solutionRoot.
  set (ws := workspace (params d)) in *.
  set (teamSlug := Team_Slug (Solution_Team (Solution (payload d)))).
  set (handle := User_Handle (Solution_User (Solution (payload d)))).
  destruct (isTeamSolution d), (solutionBelongsToOtherUser d); cbn [orb].
  - rewrite (Join_first ws) by done.
    rewrite Join_first by apply Clean_not_empty.
    cbn [pathSuffix]. rewrite !string_app_nil_r.
    change ("/" +:+ "users" +:+ "/" +:+ handle)
      with (String "/" ("users/" +:+ handle)).
    rewrite Clean_Clean_app by (by destruct ws).
    by rewrite !string_app_assoc.
  - rewrite Join_first by done. cbn [pathSuffix]. by rewrite !string_app_nil_r.
  - rewrite Join_first by done. cbn [pathSuffix]. by rewrite !string_app_nil_r.
  - done.
Qed.

(** C5: the destination root is the workspace, with [/teams/{team slug}]
    appended when the team slug is non-empty and [/users/{handle}]
    appended when the user is not the requester.  The parts are appended
    as [filepath.Join] does it: for a non-empty workspace the root is the
    clean form of the concatenation, and for a workspace in clean form
    and a team slug and a handle that are plain path elements it is the
    concatenation itself.  The flat pipeline computes the same root. *)
Theorem solutionRoot_appends (d : download) :
  (workspace (params d) ≠ "" →
   solutionRoot d
   = if (isTeamSolution d || solutionBelongsToOtherUser d)%bool
     then Filepath.Clean
            (workspace (params d)
             +:+ (if isTeamSolution d
                  then "/teams/"
                       +:+ Team_Slug (Solution_Team (Solution (payload d)))
                  else "")
             +:+ (if solutionBelongsToOtherUser d
                  then "/users/"
                       +:+ User_Handle (Solution_User (Solution (payload d)))
                  else ""))
     else workspace (params d))
  ∧ (cleanDir (workspace (params d)) = true →
     (isTeamSolution d = true
      → plainName (Team_Slug (Solution_Team (Solution (payload d)))) = true) →
     (solutionBelongsToOtherUser d = true
      → plainName (User_Handle (Solution_User (Solution (payload d))))
        = true) →
     solutionRoot d
     = workspace (params d)
       +:+ (if isTeamSolution d
            then "/teams/"
                 +:+ Team_Slug (Solution_Team (Solution (payload d)))
            else "")
       +:+ (if solutionBelongsToOtherUser d
            then "/users/"
                 +:+ User_Handle (Solution_User (Solution (payload d)))
            else ""))
  ∧ Root (Flat.exerciseOf (payload d) (Flat.cfg (toFlat (params d))))
    = solutionRoot d.
Proof.
  split; [apply solutionRoot_clean|]. split; [|reflexivity].
  unfold solutionRoot, isTeamSolution, solutionBelongsToOtherUser, isEmpty.
  set (ws := workspace (params d)).
  set (teamSlug := Team_Slug (Solution_Team (Solution (payload d)))).
  set (user := Solution_User (Solution (payload d))).
  intros Hws Hteam Huser.
  destruct (decide (teamSlug = "")) as [Ht|Ht];
    destruct (User_IsRequester user) eqn:Hreq; cbn [negb] in *.
  - rewrite (bool_decide_eq_true_2 _ Ht). cbn [negb].
    by rewrite !string_app_nil_r.
  - rewrite (bool_decide_eq_true_2 _ Ht). cbn [negb].
    rewrite Join_clean_names; [|done|].
    + cbn [pathSuffix]. by rewrite !string_app_nil_r.
    + repeat constructor. by apply Huser.
  - rewrite (bool_decide_eq_false_2 _ Ht) in *. cbn [negb] in *.
    rewrite Join_clean_names; [|done|].
    + cbn [pathSuffix]. by rewrite !string_app_nil_r.
    + repeat constructor. by apply Hteam.
  - rewrite (bool_decide_eq_false_2 _ Ht) in *. cbn [negb] in *.
    rewrite (Join_clean_names ws ["teams"; teamSlug]); [|done|].
    + rewrite Join_clean_names.
      * cbn [pathSuffix]. rewrite !string_app_nil_r. by rewrite !string_app_assoc.
      * apply cleanDir_append_names; [done|].
        repeat constructor. by apply Hteam.
      * repeat constructor. by apply Huser.
    + repeat constructor. by apply Hteam.
Qed.

Lemma solutionRoot_appends_witness :
  solutionRoot sampleDownload = "workspace/teams/acme/users/bob"
  ∧ solutionRoot sampleDownload
    = Filepath.Clean ("workspace" +:+ "/teams/acme" +:+ "/users/bob").
Proof.
  destruct (solutionRoot_appends sampleDownload) as (Hclean & Hplain & _).
  split.
  - apply Hplain.
    + reflexivity.
    + intros _. reflexivity.
    + intros _. reflexivity.
  - apply Hclean. discriminate.
Defined.

(** ** Running the collaborators *)

Section Run.

Context {Client Disk : Type}.
Variable E : Collaborators Client Disk.

Lemma bind_run {A B : Type} (m : M Disk A) (k : A → M Disk B)
    (w : World Disk) :
  (m ≫= k) w
  = match m w with
    | (Ok a, w') => k a w'
    | (Err msg, w') => (Err msg, w')
    end.
Proof. reflexivity. Qed.

Lemma NewClient_run (tok base : string) (w : World Disk) :
  NewClient E tok base w
  = (Ok (api_NewClient E tok base),
     mkWorld (trace w ++ [EvNewClient tok base]) (disk w)).
Proof. reflexivity. Qed.

Lemma Do_run (client : Client) (req : Request) (res : Response)
    (w : World Disk) :
  client_Do E (trace w) client req = inl res →
  Do E client req w = (Ok res, mkWorld (trace w ++ [EvDo req]) (disk w)).
Proof. intros H. unfold Do. by rewrite H. Qed.

Lemma lift_run {A : Type} (r : A + string) (a : A) (w : World Disk) :
  r = inl a → lift r w = (Ok a, w).
Proof. by intros ->. Qed.

End Run.

(** ** Construction of a download *)

(** C9: when the validation of the parameters fails, [newDownload]
    returns the validation error and leaves the world as it was: the
    trace gains no client construction and no request. *)
Theorem newDownload_validation_first {Client Disk : Type}
    (E : Collaborators Client Disk) (p : downloadParams) (w : World Disk)
    (err : string) :
  validateParams p = Some err →
  newDownload E p w = ((None, Some err), w).
Proof. intros Hv. unfold newDownload. by rewrite Hv. Qed.

Lemma newDownload_validation_first_witness :
  newDownload (sampleCollaborators (serveStatus 200) samplePayload)
    (mkParams "bob" "" "" "https://api.exercism.io/v1" "workspace"
       "go" "" false true)
    emptyWorld
  = ((None, Some "missing required user config: 'token'"), emptyWorld).
Proof. apply newDownload_validation_first. reflexivity. Defined.

(** What [newDownload] returns once the transport has answered and the
    body has been decoded. *)
Lemma newDownload_decoded {Client Disk : Type}
    (E : Collaborators Client Disk) (p : downloadParams) (w : World Disk)
    (client : Client) (req : Request) (res : Response)
    (pl : downloadPayload) :
  validateParams p = None →
  api_NewClient E (token p) (apibaseurl p) = (client, None) →
  client_NewRequest E client "GET" (requestURL (mkDownload p zeroPayload))
  = inl req →
  client_Do E (trace w ++ [EvNewClient (token p) (apibaseurl p)]) client
    (mkRequest (Method req)
       (buildQuery (mkDownload p zeroPayload) (ReqURL req)))
  = inl res →
  json_Decode E (Body res) = inl pl →
  StatusCode res = StatusOK →
  (newDownload E p w).1
  = (Some (mkDownload p pl), validate (mkDownload p pl)).
Proof.
  intros Hv Hclient Hreq Hdo Hdec Hstatus.
  unfold newDownload, fetchPayload. rewrite Hv.
  rewrite bind_run, NewClient_run, Hclient. cbn [fst snd].
  rewrite bind_run, (lift_run _ req) by exact Hreq.
  rewrite bind_run, (Do_run E client _ res) by exact Hdo.
  rewrite Hdec, Hstatus. reflexivity.
Qed.

(** The flat pipeline hands a payload with status 200 to its caller as it
    is; the writers then look at the error message only. *)
Lemma getDownloadPayload_decoded {Client Disk : Type}
    (E : Collaborators Client Disk) (params : Flat.downloadParams)
    (w : World Disk) (client : Client) (req : Request) (res : Response)
    (pl : downloadPayload) :
  api_NewClient E (Flat.GetString (Flat.cfg params) "token")
    (Flat.GetString (Flat.cfg params) "apibaseurl") = (client, None) →
  client_NewRequest E client "GET" (Flat.requestURL params) = inl req →
  client_Do E
    (trace w ++ [EvNewClient (Flat.GetString (Flat.cfg params) "token")
                   (Flat.GetString (Flat.cfg params) "apibaseurl")])
    client
    (mkRequest (Method req) (Flat.buildQuery params (ReqURL req)))
  = inl res →
  json_Decode E (Body res) = inl pl →
  StatusCode res = StatusOK →
  (Flat.getDownloadPayload E params w).1 = Ok pl.
Proof.
  intros Hclient Hreq Hdo Hdec Hstatus.
  unfold Flat.getDownloadPayload.
  rewrite bind_run, NewClient_run, Hclient. cbn [fst snd].
  rewrite bind_run, (lift_run _ req) by exact Hreq.
  rewrite bind_run, (Do_run E client _ res) by exact Hdo.
  rewrite Hdec, Hstatus. reflexivity.
Qed.

(** Counterexample to C6 as stated: the flat pipeline, which the claim
    also speaks of, takes a 200 payload with an empty solution ID without
    any error: [getDownloadPayload] returns it, and the writer of the
    files, which has no file to fetch here, returns no error either. *)
Lemma flat_pipeline_accepts_missing_id :
  Solution_ID (Solution zeroPayload) = ""
  ∧ (Flat.getDownloadPayload
       (sampleCollaborators (serveStatus 200) zeroPayload)
       (toFlat sampleParams) emptyWorld).1
    = Ok zeroPayload
  ∧ (Flat.writeSolutionFilesFromPayload
       (sampleCollaborators (serveStatus 200) zeroPayload)
       zeroPayload (Flat.cfg (toFlat sampleParams)) emptyWorld).1
    = Ok tt.
Proof. vm_compute. repeat split; reflexivity. Qed.

(** C6 (amended): when [newDownload] has received a payload with status
    200, it returns an error if the ID of the solution is empty or the
    error message is not, and no error exactly when the ID is non-empty
    and the error message is empty.  [getDownloadPayload], for the same
    parameters and the same answers of the collaborators, returns the
    payload of a 200 response as it is, without an error; in that pipeline
    the writer of the files refuses a payload with an error message, in
    the world as it is. *)
Theorem payload_validation_after_200 {Client Disk : Type}
    (E : Collaborators Client Disk) (p : downloadParams)
    (w w' : World Disk) (client : Client) (req : Request) (res : Response)
    (pl : downloadPayload) (usrCfg : gmap string string) :
  validateParams p = None →
  api_NewClient E (token p) (apibaseurl p) = (client, None) →
  client_NewRequest E client "GET" (requestURL (mkDownload p zeroPayload))
  = inl req →
  client_Do E (trace w ++ [EvNewClient (token p) (apibaseurl p)]) client
    (mkRequest (Method req)
       (buildQuery (mkDownload p zeroPayload) (ReqURL req)))
  = inl res →
  json_Decode E (Body res) = inl pl →
  StatusCode res = StatusOK →
  (Solution_ID (Solution pl) = ""
   → (newDownload E p w).1.2 = Some "download missing an ID")
  ∧ (Solution_ID (Solution pl) ≠ "" → Error_Message (Error pl) ≠ ""
     → (newDownload E p w).1.2 = Some (Error_Message (Error pl)))
  ∧ ((newDownload E p w).1.2 = None
     ↔ Solution_ID (Solution pl) ≠ "" ∧ Error_Message (Error pl) = "")
  ∧ (Flat.getDownloadPayload E (toFlat p) w).1 = Ok pl
  ∧ (Error_Message (Error pl) ≠ ""
     → Flat.writeSolutionFilesFromPayload E pl usrCfg w'
       = (Err (Error_Message (Error pl)), w')).
Proof.
  intros Hv Hclient Hreq Hdo Hdec Hstatus.
  assert (Hflat : (Flat.getDownloadPayload E (toFlat p) w).1 = Ok pl).
  { apply (getDownloadPayload_decoded E (toFlat p) w client req res pl);
      try done.
    - by rewrite (flat_requestURL p zeroPayload).
    - rewrite (flat_buildQuery p zeroPayload)
        by (by apply validateParams_slugXorUUID).
      done. }
  assert (Hwriter : Error_Message (Error pl) ≠ ""
            → Flat.writeSolutionFilesFromPayload E pl usrCfg w'
              = (Err (Error_Message (Error pl)), w')).
  { intros Hmsg. unfold Flat.writeSolutionFilesFromPayload, isEmpty.
    by rewrite (bool_decide_eq_false_2 _ Hmsg). }
  rewrite (newDownload_decoded E p w client req res pl) by assumption.
  cbn [fst snd]. unfold validate, isEmpty. cbn [payload].
  destruct (decide (Solution_ID (Solution pl) = "")) as [Hid|Hid].
  - rewrite (bool_decide_eq_true_2 _ Hid).
    split; [done|]. split; [done|]. split; [|done].
    split; [discriminate|]. by intros [? _].
  - rewrite (bool_decide_eq_false_2 _ Hid).
    destruct (decide (Error_Message (Error pl) = "")) as [Hmsg|Hmsg].
    + rewrite (bool_decide_eq_true_2 _ Hmsg). cbn [negb].
      split; [done|]. split; [done|]. split; [done|]. done.
    + rewrite (bool_decide_eq_false_2 _ Hmsg). cbn [negb].
      split; [done|]. split; [done|]. split; [|done].
      split; [discriminate|]. by intros [_ ?].
Qed.

Lemma payload_validation_after_200_witness :
  (newDownload (sampleCollaborators (serveStatus 200) ambiguousPayload)
     sampleParams emptyWorld).1.2
  = Some "download missing an ID"
  ∧ (Flat.getDownloadPayload
       (sampleCollaborators (serveStatus 200) ambiguousPayload)
       (toFlat sampleParams) emptyWorld).1
    = Ok ambiguousPayload
  ∧ Flat.writeSolutionFilesFromPayload
      (sampleCollaborators (serveStatus 200) ambiguousPayload)
      ambiguousPayload ∅ emptyWorld
    = (Err "exercise slug is not unique", emptyWorld).
Proof.
  destruct (payload_validation_after_200
              (sampleCollaborators (serveStatus 200) ambiguousPayload)
              sampleParams emptyWorld emptyWorld tt
              (mkRequest "GET"
                 (mkURL (requestURL (mkDownload sampleParams zeroPayload)) ∅))
              (serveStatus 200 (mkRequest "GET" (mkURL "" ∅)))
              ambiguousPayload ∅)
    as (Hid & _ & _ & Hflat & Hwriter); try reflexivity.
  split; [by apply Hid|]. split; [exact Hflat|].
  apply Hwriter. discriminate.
Defined.

(** ** Writing the files *)

(** C7: for a download whose parameters come from a local exercise,
    [writeSolutionFiles] returns an error and leaves the world as it was,
    whatever the list of files: nothing is requested and nothing is
    written. *)
Theorem writeSolutionFiles_refuses_local_exercise {Client Disk : Type}
    (E : Collaborators Client Disk) (d : download) (w : World Disk) :
  fromExercise (params d) = true →
  writeSolutionFiles E d w
  = (Err "existing exercise files should not be overwritten", w).
Proof. intros H. unfold writeSolutionFiles. by rewrite H. Qed.

Lemma writeSolutionFiles_refuses_local_exercise_witness :
  writeSolutionFiles (sampleCollaborators serveFirstFile samplePayload)
    (mkDownload
       (mkParams "exercise" "" "secret" "https://api.exercism.io/v1"
          "workspace" "go" "" true false)
       samplePayload)
    emptyWorld
  = (Err "existing exercise files should not be overwritten", emptyWorld).
Proof.
  apply writeSolutionFiles_refuses_local_exercise. reflexivity.
Defined.

(** The response that [requestFile] gets is swallowed when its status is
    not 200 or its [Content-Length] is ["0"]. *)
Lemma requestFile_swallowed {Client Disk : Type}
    (E : Collaborators Client Disk) (d : download) (filename : string)
    (w : World Disk) (url : URL) (req : Request) (res : Response) :
  url_ParseRequestURI E
    (FileDownloadBaseURL (Solution (payload d)) +:+ filename) = inl url →
  client_NewRequest E
    (api_NewClient E (token (params d)) (apibaseurl (params d))).1
    "GET" (url_String E url) = inl req →
  client_Do E
    (trace w ++ [EvNewClient (token (params d)) (apibaseurl (params d))])
    (api_NewClient E (token (params d)) (apibaseurl (params d))).1 req
  = inl res →
  StatusCode res ≠ StatusOK ∨ Get (Header res) "Content-Length" = "0" →
  requestFile E d filename w
  = (Ok None,
     afterRequest w (token (params d)) (apibaseurl (params d)) req).
Proof.
  intros Hurl Hreq Hdo Hskip. unfold requestFile.
  rewrite bind_run, (lift_run _ url) by exact Hurl.
  rewrite bind_run, NewClient_run.
  rewrite bind_run, (lift_run _ req) by exact Hreq.
  rewrite bind_run, (Do_run E _ _ res) by exact Hdo.
  cbn [trace disk]. unfold afterRequest. rewrite <- (assoc_L (++)).
  destruct Hskip as [Hstatus|Hlen].
  - by rewrite (bool_decide_eq_false_2 _ Hstatus).
  - rewrite (bool_decide_eq_true_2 _ Hlen). by case_bool_decide.
Qed.

(** C8: a file whose response has a status other than 200, or a
    [Content-Length] of ["0"], is skipped by both loops: the request is
    the only thing that happens, the disk stays as it was, no error is
    returned for the file, and the loop goes on with the remaining
    files. *)
Theorem skipped_file_response {Client Disk : Type}
    (E : Collaborators Client Disk) (d : download) (filename : string)
    (rest : list string) (w : World Disk) (url : URL) (req : Request)
    (res : Response) :
  url_ParseRequestURI E
    (FileDownloadBaseURL (Solution (payload d)) +:+ filename) = inl url →
  client_NewRequest E
    (api_NewClient E (token (params d)) (apibaseurl (params d))).1
    "GET" (url_String E url) = inl req →
  client_Do E
    (trace w ++ [EvNewClient (token (params d)) (apibaseurl (params d))])
    (api_NewClient E (token (params d)) (apibaseurl (params d))).1 req
  = inl res →
  StatusCode res ≠ StatusOK ∨ Get (Header res) "Content-Length" = "0" →
  writeFiles E d (filename :: rest) w
  = writeFiles E d rest
      (afterRequest w (token (params d)) (apibaseurl (params d)) req)
  ∧ writeFiles E d [filename] w
    = (Ok tt, afterRequest w (token (params d)) (apibaseurl (params d)) req)
  ∧ disk (afterRequest w (token (params d)) (apibaseurl (params d)) req)
    = disk w
  ∧ Flat.writeFiles E (payload d) (Flat.cfg (toFlat (params d)))
      (filename :: rest) w
    = Flat.writeFiles E (payload d) (Flat.cfg (toFlat (params d))) rest
        (afterRequest w (token (params d)) (apibaseurl (params d)) req).
Proof.
  intros Hurl Hreq Hdo Hskip.
  pose proof (requestFile_swallowed E d filename w url req res
                Hurl Hreq Hdo Hskip) as Hfile.
  split; [|split; [|split]].
  - cbn [writeFiles]. by rewrite bind_run, Hfile.
  - cbn [writeFiles]. by rewrite bind_run, Hfile.
  - reflexivity.
  - cbn [Flat.writeFiles]. rewrite toFlat_token, toFlat_apibaseurl.
    rewrite bind_run, (lift_run _ url) by exact Hurl.
    rewrite bind_run, NewClient_run.
    rewrite bind_run, (lift_run _ req) by exact Hreq.
    rewrite bind_run, (Do_run E _ _ res) by exact Hdo.
    cbn [trace disk]. unfold afterRequest. rewrite <- (assoc_L (++)).
    destruct Hskip as [Hstatus|Hlen].
    + by rewrite (bool_decide_eq_false_2 _ Hstatus).
    + rewrite (bool_decide_eq_true_2 _ Hlen). by case_bool_decide.
Qed.

Lemma skipped_file_response_witness :
  writeFiles (sampleCollaborators serveFirstFile samplePayload)
    sampleDownload ["README.md"] emptyWorld
  = (Ok tt,
     afterRequest emptyWorld "secret" "https://api.exercism.io/v1"
       (mkRequest "GET"
          (mkURL "https://api.exercism.io/v1/solutions/abc123/files/README.md"
             ∅))).
Proof.
  refine (proj1 (proj2 (skipped_file_response
                          (sampleCollaborators serveFirstFile samplePayload)
                          sampleDownload "README.md" [] emptyWorld
                          (mkURL "https://api.exercism.io/v1/solutions/abc123/files/README.md" ∅)
                          (mkRequest "GET"
                             (mkURL "https://api.exercism.io/v1/solutions/abc123/files/README.md" ∅))
                          (mkResponse 404 ∅ "") _ _ _ _))).
  - reflexivity.
  - reflexivity.
  - reflexivity.
  - left. discriminate.
Defined.

(** The whole batch of [sampleDownload]: the first file is written under
    the destination, the second, answered with 404, leaves no file. *)
Example writeSolutionFiles_sample :
  let out := writeSolutionFiles
               (sampleCollaborators serveFirstFile samplePayload)
               sampleDownload emptyWorld in
  out.1 = Ok tt
  ∧ disk out.2
    = {["workspace/teams/acme/users/bob/go/exercise/exercise.go"
        := "package main"]}.
Proof. vm_compute. split; reflexivity. Qed.

(** ** The error of the client construction *)

(** C10: [requestFile] does not look at the error that the client
    construction returns: with a construction that reports an error next
    to the same client it acts and answers as without the error; and when
    the construction reports an error and the request then succeeds with
    a status 200 and a body, the response is returned and no error. *)
Theorem requestFile_discards_client_error {Client Disk : Type}
    (E : Collaborators Client Disk) (d : download) (filename : string)
    (w : World Disk) :
  (∀ err, requestFile (withClientError err E) d filename w
          = requestFile E d filename w)
  ∧ (∀ client err url req res,
       api_NewClient E (token (params d)) (apibaseurl (params d))
       = (client, Some err) →
       url_ParseRequestURI E
         (FileDownloadBaseURL (Solution (payload d)) +:+ filename)
       = inl url →
       client_NewRequest E client "GET" (url_String E url) = inl req →
       client_Do E
         (trace w ++ [EvNewClient (token (params d)) (apibaseurl (params d))])
         client req = inl res →
       StatusCode res = StatusOK →
       Get (Header res) "Content-Length" ≠ "0" →
       requestFile E d filename w
       = (Ok (Some res),
          afterRequest w (token (params d)) (apibaseurl (params d)) req)).
Proof.
  split.
  - intros err. reflexivity.
  - intros client err url req res Hclient Hurl Hreq Hdo Hstatus Hlen.
    unfold requestFile.
    rewrite bind_run, (lift_run _ url) by exact Hurl.
    rewrite bind_run, NewClient_run, Hclient. cbn [fst snd].
    rewrite bind_run, (lift_run _ req) by exact Hreq.
    rewrite bind_run, (Do_run E _ _ res) by exact Hdo.
    cbn [trace disk]. unfold afterRequest. rewrite <- (assoc_L (++)).
    rewrite (bool_decide_eq_true_2 _ Hstatus).
    by rewrite (bool_decide_eq_false_2 _ Hlen).
Qed.

Lemma requestFile_discards_client_error_witness :
  requestFile
    (withClientError "no client"
       (sampleCollaborators serveFirstFile samplePayload))
    sampleDownload "exercise.go" emptyWorld
  = (Ok (Some (mkResponse 200 {["Content-Length" := ["12"]]} "package main")),
     afterRequest emptyWorld "secret" "https://api.exercism.io/v1"
       (mkRequest "GET"
          (mkURL "https://api.exercism.io/v1/solutions/abc123/files/exercise.go"
             ∅))).
Proof.
  refine (proj2 (requestFile_discards_client_error
                   (withClientError "no client"
                      (sampleCollaborators serveFirstFile samplePayload))
                   sampleDownload "exercise.go" emptyWorld)
            tt "no client"
            (mkURL "https://api.exercism.io/v1/solutions/abc123/files/exercise.go" ∅)
            (mkRequest "GET"
               (mkURL "https://api.exercism.io/v1/solutions/abc123/files/exercise.go" ∅))
            (mkResponse 200 {["Content-Length" := ["12"]]} "package main")
            _ _ _ _ _ _).
  - reflexivity.
  - reflexivity.
  - reflexivity.
  - reflexivity.
  - reflexivity.
  - vm_compute. discriminate.
Defined.

(** [newDownload], for comparison, returns the error of the client
    construction. *)
Lemma newDownload_client_error {Client Disk : Type}
    (E : Collaborators Client Disk) (p : downloadParams) (w : World Disk)
    (err : string) :
  validateParams p = None →
  (newDownload (withClientError err E) p w).1 = (None, Some err).
Proof.
  intros Hv. unfold newDownload, fetchPayload. rewrite Hv.
  rewrite bind_run, NewClient_run. reflexivity.
Qed.

(** * Further properties *)

(** ** Validation of the parameters, in full *)

Lemma isEmpty_true (s : string) : isEmpty s = true ↔ s = "".
Proof. unfold isEmpty. apply bool_decide_eq_true. Qed.

Lemma isEmpty_false (s : string) : isEmpty s = false ↔ s ≠ "".
Proof. unfold isEmpty. apply bool_decide_eq_false. Qed.

Lemma needsUserConfigValues_None (p : downloadParams) :
  needsUserConfigValues p = None
  ↔ token p ≠ "" ∧ apibaseurl p ≠ "" ∧ workspace p ≠ "".
Proof.
  unfold needsUserConfigValues.
  destruct (isEmpty (token p)) eqn:Ht;
    [apply isEmpty_true in Ht | apply isEmpty_false in Ht].
  { split; [discriminate | tauto]. }
  destruct (isEmpty (apibaseurl p)) eqn:Ha;
    [apply isEmpty_true in Ha | apply isEmpty_false in Ha].
  { split; [discriminate | tauto]. }
  destruct (isEmpty (workspace p)) eqn:Hw;
    [apply isEmpty_true in Hw | apply isEmpty_false in Hw].
  { split; [discriminate | tauto]. }
  tauto.
Qed.

Lemma needsSlugWhenGivenTrackOrTeam_None (p : downloadParams) :
  needsSlugWhenGivenTrackOrTeam p = None
  ↔ (fromFlags p = true → team p ≠ "" ∨ track p ≠ "" → slug p ≠ "").
Proof.
  unfold needsSlugWhenGivenTrackOrTeam, isEmpty.
  destruct (fromFlags p); [|split; [discriminate | done]].
  destruct (decide (slug p = "")) as [Hslug|Hslug].
  - rewrite (bool_decide_eq_true_2 _ Hslug), andb_true_r.
    destruct (decide (team p = "")) as [Hteam|Hteam];
      destruct (decide (track p = "")) as [Htrack|Htrack];
      rewrite ?(bool_decide_eq_true_2 _ Hteam),
        ?(bool_decide_eq_false_2 _ Hteam),
        ?(bool_decide_eq_true_2 _ Htrack),
        ?(bool_decide_eq_false_2 _ Htrack); cbn [negb orb].
    + split; [|done]. intros _ _ [?|?]; done.
    + split; [done|]. intros H. exfalso. apply (H eq_refl); [by right|done].
    + split; [done|]. intros H. exfalso. apply (H eq_refl); [by left|done].
    + split; [done|]. intros H. exfalso. apply (H eq_refl); [by left|done].
  - rewrite (bool_decide_eq_false_2 _ Hslug), andb_false_r. done.
Qed.

Lemma validateParams_None_rules (p : downloadParams) :
  validateParams p = None
  ↔ needsSlugXorUUID p = None
    ∧ needsUserConfigValues p = None
    ∧ needsSlugWhenGivenTrackOrTeam p = None.
Proof.
  unfold validateParams.
  destruct (needsSlugXorUUID p), (needsUserConfigValues p),
    (needsSlugWhenGivenTrackOrTeam p); split; try done;
    intros (? & ? & ?); done.
Qed.

(** X1: the parameters pass the validation exactly when one of slug and
    uuid is set, the three values of the user configuration are present,
    and, for parameters from flags, a track or team comes with a slug. *)
Theorem validateParams_None_iff (p : downloadParams) :
  validateParams p = None
  ↔ slugXorUUID p
    ∧ token p ≠ "" ∧ apibaseurl p ≠ "" ∧ workspace p ≠ ""
    ∧ (fromFlags p = true → team p ≠ "" ∨ track p ≠ "" → slug p ≠ "").
Proof.
  unfold validateParams. split.
  - intros H.
    destruct (needsSlugXorUUID p) eqn:H1; [done|].
    destruct (needsUserConfigValues p) eqn:H2; [done|].
    destruct (needsSlugWhenGivenTrackOrTeam p) eqn:H3; [done|].
    apply needsSlugXorUUID_None in H1.
    apply needsUserConfigValues_None in H2 as (? & ? & ?).
    pose proof (proj1 (needsSlugWhenGivenTrackOrTeam_None p) H3). auto.
  - intros (H1 & Ht & Ha & Hw & H3).
    apply needsSlugXorUUID_None in H1. rewrite H1.
    rewrite (proj2 (needsUserConfigValues_None p)) by done.
    by rewrite (proj2 (needsSlugWhenGivenTrackOrTeam_None p) H3).
Qed.

(** X2: with one of slug and uuid set, a missing value of the user
    configuration is reported by name, the first missing one in the order
    token, apibaseurl, workspace. *)
Theorem validate_names_missing_config (p : downloadParams) :
  slugXorUUID p →
  (token p = ""
   → validateParams p = Some "missing required user config: 'token'")
  ∧ (token p ≠ "" → apibaseurl p = ""
     → validateParams p = Some "missing required user config: 'apibaseurl'")
  ∧ (token p ≠ "" → apibaseurl p ≠ "" → workspace p = ""
     → validateParams p = Some "missing required user config: 'workspace'").
Proof.
  intros Hxor. apply needsSlugXorUUID_None in Hxor.
  unfold validateParams, needsUserConfigValues, isEmpty. rewrite Hxor.
  split; [|split].
  - intros Ht. by rewrite (bool_decide_eq_true_2 _ Ht).
  - intros Ht Ha.
    by rewrite (bool_decide_eq_false_2 _ Ht), (bool_decide_eq_true_2 _ Ha).
  - intros Ht Ha Hw.
    by rewrite (bool_decide_eq_false_2 _ Ht), (bool_decide_eq_false_2 _ Ha),
      (bool_decide_eq_true_2 _ Hw).
Qed.

Lemma validate_names_missing_config_witness :
  validateParams
    (mkParams "bob" "" "secret" "" "" "go" "" false true)
  = Some "missing required user config: 'apibaseurl'".
Proof.
  refine (proj1 (proj2 (validate_names_missing_config
                          (mkParams "bob" "" "secret" "" "" "go" "" false true)
                          _)) _ _).
  - left. split; [discriminate | reflexivity].
  - discriminate.
  - reflexivity.
Defined.

(** X3: when the first two rules pass, the validation fails with the
    track-or-team error exactly for parameters from flags that have a team
    or a track and no slug; parameters from a local exercise never get
    this error. *)
Theorem validate_track_team_need_slug (p : downloadParams) :
  needsSlugXorUUID p = None →
  needsUserConfigValues p = None →
  (validateParams p
   = Some "--team or --track requires --exercise (not --uuid)"
   ↔ fromFlags p = true ∧ (team p ≠ "" ∨ track p ≠ "") ∧ slug p = "")
  ∧ (validateParams p = None
     ∨ validateParams p
       = Some "--team or --track requires --exercise (not --uuid)")
  ∧ (fromFlags p = false → validateParams p = None).
Proof.
  intros H1 H2. unfold validateParams. rewrite H1, H2.
  pose proof (needsSlugWhenGivenTrackOrTeam_None p) as Hnone.
  unfold needsSlugWhenGivenTrackOrTeam in *.
  destruct (fromFlags p).
  - destruct ((negb (isEmpty (team p)) || negb (isEmpty (track p)))
              && isEmpty (slug p))%bool eqn:Hc.
    + split; [|split; [by right | done]].
      split; [intros _|done].
      apply andb_prop in Hc as [Hc Hs]. apply isEmpty_true in Hs.
      split; [done|]. split; [|done].
      apply orb_prop in Hc as [Hc|Hc]; apply negb_true_iff in Hc;
        apply isEmpty_false in Hc; [by left | by right].
    + split; [|split; [by left | done]].
      split; [done|]. intros (_ & Htt & Hs).
      destruct Hnone as [Hnone _]. specialize (Hnone eq_refl eq_refl Htt).
      done.
  - split; [|split; [by left | done]].
    split; [done|]. by intros (? & _).
Qed.

Lemma validate_track_team_need_slug_witness :
  validateParams
    (mkParams "" "abc123" "secret" "https://api.exercism.io/v1" "workspace"
       "go" "" false true)
  = Some "--team or --track requires --exercise (not --uuid)".
Proof.
  refine (proj2 (proj1 (validate_track_team_need_slug
                          (mkParams "" "abc123" "secret"
                             "https://api.exercism.io/v1" "workspace"
                             "go" "" false true) _ _)) _).
  - reflexivity.
  - reflexivity.
  - split; [reflexivity|]. split; [right; discriminate | reflexivity].
Defined.

(** ** The user configuration *)

(** X4: [validateUserConfig] accepts a configuration exactly when token,
    workspace and apibaseurl are all present, and that is exactly when the
    parameters set from the configuration pass the rule of the required
    configuration values. *)
Theorem validateUserConfig_None_iff (binaryName : string)
    (settingsURL : string → string) (cfg : gmap string string)
    (d : downloadParams) :
  (validateUserConfig binaryName settingsURL cfg = None
   ↔ Flat.GetString cfg "token" ≠ ""
     ∧ Flat.GetString cfg "workspace" ≠ ""
     ∧ Flat.GetString cfg "apibaseurl" ≠ "")
  ∧ (validateUserConfig binaryName settingsURL cfg = None
     ↔ needsUserConfigValues (setFromConfig d cfg) = None).
Proof.
  assert (Hiff : validateUserConfig binaryName settingsURL cfg = None
                 ↔ Flat.GetString cfg "token" ≠ ""
                   ∧ Flat.GetString cfg "workspace" ≠ ""
                   ∧ Flat.GetString cfg "apibaseurl" ≠ "").
  { unfold validateUserConfig.
    destruct (isEmpty (Flat.GetString cfg "token")) eqn:Ht;
      [apply isEmpty_true in Ht | apply isEmpty_false in Ht].
    { split; [discriminate | tauto]. }
    destruct (isEmpty (Flat.GetString cfg "workspace")) eqn:Hw;
      [apply isEmpty_true in Hw | apply isEmpty_false in Hw].
    { split; [discriminate | tauto]. }
    destruct (isEmpty (Flat.GetString cfg "apibaseurl")) eqn:Ha;
      [apply isEmpty_true in Ha | apply isEmpty_false in Ha].
    { split; [discriminate | tauto]. }
    cbn [orb]. tauto. }
  split; [exact Hiff|].
  rewrite Hiff, needsUserConfigValues_None.
  cbn [setFromConfig token apibaseurl workspace]. tauto.
Qed.

(** ** Construction of the parameters *)

(** The outcomes of [newDownload], with what each adds to the trace. *)
Lemma newDownload_shape {Client Disk : Type}
    (E : Collaborators Client Disk) (p : downloadParams) (w : World Disk) :
  ∃ (added : list event) (od : option download) (err : error),
    newDownload E p w = ((od, err), mkWorld (trace w ++ added) (disk w))
    ∧ (added = []
       ∨ added = [EvNewClient (token p) (apibaseurl p)]
       ∨ ∃ req, added = [EvNewClient (token p) (apibaseurl p); EvDo req])
    ∧ (od = None → err ≠ None)
    ∧ (∀ d, od = Some d
            → validateParams p = None ∧ params d = p ∧ err = validate d).
Proof.
  unfold newDownload, fetchPayload.
  destruct (validateParams p) as [e|] eqn:Hv.
  { exists [], None, (Some e). rewrite (right_id_L [] (++)).
    destruct w. repeat split; [by left|done|done..]. }
  rewrite bind_run, NewClient_run.
  destruct (api_NewClient E (token p) (apibaseurl p)) as [client [e|]];
    cbn [fst snd].
  { exists [EvNewClient (token p) (apibaseurl p)], None, (Some e).
    repeat split; [by right; left|done|done..]. }
  rewrite bind_run.
  destruct (client_NewRequest E client "GET" _) as [req|msg]; cbn [lift].
  2:{ exists [EvNewClient (token p) (apibaseurl p)], None, (Some msg).
      repeat split; [by right; left|done|done..]. }
  unfold ret at 1. rewrite bind_run. unfold Do. cbn [trace disk].
  rewrite <- (assoc_L (++)). cbn [app].
  set (req' := mkRequest (Method req) _).
  destruct (client_Do E _ client req') as [res|msg].
  2:{ exists [EvNewClient (token p) (apibaseurl p); EvDo req'], None,
        (Some msg).
      repeat split; [right; right; by exists req'|done|done..]. }
  destruct (json_Decode E (Body res)) as [pl|msg].
  2:{ eexists [EvNewClient (token p) (apibaseurl p); EvDo req'], None,
        (Some _).
      repeat split; [right; right; by exists req'|done|done..]. }
  destruct (bool_decide (StatusCode res = StatusUnauthorized)).
  { eexists [EvNewClient (token p) (apibaseurl p); EvDo req'], None,
      (Some _).
    repeat split; [right; right; by exists req'|done|done..]. }
  destruct (bool_decide (StatusCode res = StatusOK)); cbn [negb].
  - exists [EvNewClient (token p) (apibaseurl p); EvDo req'],
      (Some (mkDownload p pl)), (validate (mkDownload p pl)).
    repeat split; [right; right; by exists req'|done|..];
      by simplify_eq.
  - destruct (bool_decide (Error_Type (Error pl) = "track_ambiguous"));
      eexists [EvNewClient (token p) (apibaseurl p); EvDo req'], None,
        (Some _);
      (repeat split; [right; right; by exists req'|done|done..]).
Qed.

Lemma newDownload_params {Client Disk : Type}
    (E : Collaborators Client Disk) (p : downloadParams) (w w' : World Disk)
    (d : download) (err : error) :
  newDownload E p w = ((Some d, err), w') → params d = p.
Proof.
  destruct (newDownload_shape E p w) as (added & od & e & -> & _ & _ & Hd).
  intros [= -> _ _]. by destruct (Hd d eq_refl) as (_ & ? & _).
Qed.

(** X5: the parameters made from a local exercise pass the validation
    exactly when the exercise has a slug and the configuration is
    complete; and a download constructed from a local exercise is refused
    by [writeSolutionFiles] in every world, which is left as it was. *)
Theorem download_from_exercise_never_written {Client Disk : Type}
    (E : Collaborators Client Disk) (usrCfg : gmap string string)
    (ex : Exercise) :
  ((newDownloadParamsFromExercise usrCfg ex).2 = None
   ↔ Slug ex ≠ ""
     ∧ Flat.GetString usrCfg "token" ≠ ""
     ∧ Flat.GetString usrCfg "apibaseurl" ≠ ""
     ∧ Flat.GetString usrCfg "workspace" ≠ "")
  ∧ (∀ (w w' w'' : World Disk) (d : download) (err : error),
       newDownloadFromExercise E usrCfg ex w = ((Some d, err), w')
       → writeSolutionFiles E d w''
         = (Err "existing exercise files should not be overwritten", w'')).
Proof.
  split.
  - unfold newDownloadParamsFromExercise. cbn [snd].
    rewrite validateParams_None_rules, needsSlugXorUUID_None,
      needsUserConfigValues_None, needsSlugWhenGivenTrackOrTeam_None.
    unfold slugXorUUID.
    cbn [setFromConfig slug uuid token apibaseurl workspace track team
           fromFlags].
    split.
    + intros ([[? _]|[_ ?]] & (? & ? & ?) & _); done.
    + intros (? & ? & ? & ?). repeat split; try done. by left.
  - intros w w' w'' d err Hnew.
    unfold newDownloadFromExercise, newDownloadParamsFromExercise in Hnew.
    destruct (validateParams _) as [e|] eqn:Hv; [discriminate|].
    apply newDownload_params in Hnew.
    unfold writeSolutionFiles. by rewrite Hnew.
Qed.

(** X6: an error of the parameters, from reading a flag or from the
    validation, stops both constructors before any client is made or
    request is sent, and no download is returned. *)
Theorem constructors_stop_on_parameter_error {Client Disk : Type}
    (E : Collaborators Client Disk) (usrCfg : gmap string string)
    (flags : FlagSet) (ex : Exercise) (w : World Disk) (err : string) :
  ((newDownloadParamsFromFlags usrCfg flags).2 = Some err
   → newDownloadFromFlags E usrCfg flags w = ((None, Some err), w))
  ∧ ((newDownloadParamsFromExercise usrCfg ex).2 = Some err
     → newDownloadFromExercise E usrCfg ex w = ((None, Some err), w)).
Proof.
  split; intros Herr.
  - unfold newDownloadFromFlags.
    destruct (newDownloadParamsFromFlags usrCfg flags) as [op e].
    cbn [snd] in Herr. subst e. by destruct op.
  - unfold newDownloadFromExercise.
    destruct (newDownloadParamsFromExercise usrCfg ex) as [op e].
    cbn [snd] in Herr. subst e. by destruct op.
Qed.

Lemma constructors_stop_on_parameter_error_witness :
  newDownloadFromFlags (sampleCollaborators (serveStatus 200) samplePayload)
    {["token" := "secret"]}
    (fun name => if bool_decide (name = "uuid") then inl "abc123" else inl "")
    emptyWorld
  = ((None, Some "missing required user config: 'apibaseurl'"), emptyWorld).
Proof.
  refine (proj1 (constructors_stop_on_parameter_error
                   (sampleCollaborators (serveStatus 200) samplePayload)
                   {["token" := "secret"]}
                   (fun name => if bool_decide (name = "uuid")
                                then inl "abc123" else inl "")
                   (mkWsExercise "" "" "") emptyWorld
                   "missing required user config: 'apibaseurl'") _).
  reflexivity.
Defined.

(** X7: when all four flags can be read, the parameters from flags pass
    the validation exactly when one of [--uuid] and [--exercise] is
    given, the configuration is complete, and [--track] or [--team] come
    with [--exercise]. *)
Theorem params_from_flags_valid_iff (usrCfg : gmap string string)
    (flags : FlagSet) (uuid' slug' track' team' : string) :
  flags "uuid" = inl uuid' →
  flags "exercise" = inl slug' →
  flags "track" = inl track' →
  flags "team" = inl team' →
  (newDownloadParamsFromFlags usrCfg flags).2 = None
  ↔ ((slug' ≠ "" ∧ uuid' = "") ∨ (slug' = "" ∧ uuid' ≠ ""))
    ∧ Flat.GetString usrCfg "token" ≠ ""
    ∧ Flat.GetString usrCfg "apibaseurl" ≠ ""
    ∧ Flat.GetString usrCfg "workspace" ≠ ""
    ∧ (team' ≠ "" ∨ track' ≠ "" → slug' ≠ "").
Proof.
  intros Hu Hs Htr Hte. unfold newDownloadParamsFromFlags.
  rewrite Hu, Hs, Htr, Hte. cbn [snd].
  rewrite validateParams_None_rules, needsSlugXorUUID_None,
    needsUserConfigValues_None, needsSlugWhenGivenTrackOrTeam_None.
  unfold slugXorUUID.
  cbn [setFromConfig slug uuid token apibaseurl workspace track team
         fromFlags].
  split.
  - intros (Hx & (Ht & Ha & Hw) & Hrule). repeat split; try done.
    by apply Hrule.
  - intros (Hx & Ht & Ha & Hw & Hrule). by repeat split.
Qed.

Lemma params_from_flags_valid_iff_witness :
  (newDownloadParamsFromFlags
     (<["token" := "secret"]>
        (<["apibaseurl" := "https://api.exercism.io/v1"]>
           {["workspace" := "workspace"]}))
     (fun name => if bool_decide (name = "exercise") then inl "bob"
                  else if bool_decide (name = "track") then inl "go"
                  else inl "")).2
  = None.
Proof.
  refine (proj2 (params_from_flags_valid_iff
                   (<["token" := "secret"]>
                      (<["apibaseurl" := "https://api.exercism.io/v1"]>
                         {["workspace" := "workspace"]}))
                   (fun name => if bool_decide (name = "exercise")
                                then inl "bob"
                                else if bool_decide (name = "track")
                                then inl "go" else inl "")
                   "" "bob" "go" "" _ _ _ _) _); try reflexivity.
  split; [left; split; [discriminate | reflexivity]|].
  repeat split; try discriminate.
Defined.

Lemma download_from_exercise_never_written_witness :
  writeSolutionFiles (sampleCollaborators (serveStatus 200) samplePayload)
    (mkDownload
       (mkParams "exercise" "" "secret" "https://api.exercism.io/v1"
          "workspace" "go" "" true false)
       samplePayload)
    emptyWorld
  = (Err "existing exercise files should not be overwritten", emptyWorld).
Proof.
  refine (proj2 (download_from_exercise_never_written
                   (sampleCollaborators (serveStatus 200) samplePayload)
                   (<["token" := "secret"]>
                      (<["apibaseurl" := "https://api.exercism.io/v1"]>
                         {["workspace" := "workspace"]}))
                   (mkWsExercise "workspace" "go" "exercise"))
            emptyWorld _ emptyWorld _ None _).
  reflexivity.
Defined.

(** ** What [newDownload] returns and does *)

(** X8: a download that [newDownload] returns holds the parameters it was
    given, these passed the validation, and the error returned with it is
    the outcome of its own validation; without a download there is always
    an error; so a result without error is a download of valid parameters
    with a solution ID and no error message. *)
Theorem newDownload_result_invariant {Client Disk : Type}
    (E : Collaborators Client Disk) (p : downloadParams) (w : World Disk) :
  (∀ d err, (newDownload E p w).1 = (Some d, err)
            → validateParams p = None ∧ params d = p ∧ err = validate d)
  ∧ (newDownload E p w).1 ≠ (None, None)
  ∧ (∀ d, (newDownload E p w).1 = (Some d, None)
          → Solution_ID (Solution (payload d)) ≠ ""
            ∧ Error_Message (Error (payload d)) = "").
Proof.
  destruct (newDownload_shape E p w)
    as (added & od & e & -> & _ & Hnone & Hsome).
  cbn [fst]. split; [|split].
  - intros d err [= -> ->]. by apply Hsome.
  - intros [= -> ->]. by apply Hnone.
  - intros d [= -> ->].
    destruct (Hsome d eq_refl) as (_ & _ & Hval).
    unfold validate, isEmpty in Hval.
    destruct (decide (Solution_ID (Solution (payload d)) = "")) as [Hid|Hid].
    { by rewrite (bool_decide_eq_true_2 _ Hid) in Hval. }
    rewrite (bool_decide_eq_false_2 _ Hid) in Hval. split; [done|].
    destruct (decide (Error_Message (Error (payload d)) = "")) as [Hm|Hm];
      [done|].
    by rewrite (bool_decide_eq_false_2 _ Hm) in Hval.
Qed.

Lemma newDownload_result_invariant_witness :
  Solution_ID (Solution (payload (mkDownload sampleParams samplePayload)))
  ≠ ""
  ∧ Error_Message (Error (payload (mkDownload sampleParams samplePayload)))
    = "".
Proof.
  refine (proj2 (proj2 (newDownload_result_invariant
                          (sampleCollaborators (serveStatus 200)
                             samplePayload)
                          sampleParams emptyWorld))
            (mkDownload sampleParams samplePayload) _).
  reflexivity.
Defined.

(** X9: [newDownload] never touches the disk, and what it adds to the
    trace is nothing, or one client construction, or one client
    construction followed by one request: at most one request is sent. *)
Theorem newDownload_effects {Client Disk : Type}
    (E : Collaborators Client Disk) (p : downloadParams) (w : World Disk) :
  disk (newDownload E p w).2 = disk w
  ∧ ∃ added,
      trace (newDownload E p w).2 = trace w ++ added
      ∧ (length (requestsOf added) ≤ 1)%nat
      ∧ (added = []
         ∨ added = [EvNewClient (token p) (apibaseurl p)]
         ∨ ∃ req, added = [EvNewClient (token p) (apibaseurl p); EvDo req]).
Proof.
  destruct (newDownload_shape E p w)
    as (added & od & e & -> & Hshape & _ & _).
  cbn [snd trace disk]. split; [done|].
  exists added. split; [done|]. split; [|done].
  destruct Hshape as [->|[->|[req ->]]]; cbn; lia.
Qed.

(** What [newDownload] returns once the transport has answered. *)
Lemma newDownload_responded {Client Disk : Type}
    (E : Collaborators Client Disk) (p : downloadParams) (w : World Disk)
    (client : Client) (req : Request) (res : Response) :
  validateParams p = None →
  api_NewClient E (token p) (apibaseurl p) = (client, None) →
  client_NewRequest E client "GET" (requestURL (mkDownload p zeroPayload))
  = inl req →
  client_Do E (trace w ++ [EvNewClient (token p) (apibaseurl p)]) client
    (mkRequest (Method req)
       (buildQuery (mkDownload p zeroPayload) (ReqURL req)))
  = inl res →
  (newDownload E p w).1
  = match json_Decode E (Body res) with
    | inr err => (None, Some ("unable to parse API response - " +:+ err))
    | inl pl =>
        if bool_decide (StatusCode res = StatusUnauthorized) then
          (None,
           Some ("unauthorized request. Please run the configure command. You can find your API token at "
                 +:+ config_InferSiteURL E (apibaseurl p) +:+ "/my/settings"))
        else if bool_decide (StatusCode res = StatusOK) then
          (Some (mkDownload p pl), validate (mkDownload p pl))
        else if bool_decide (Error_Type (Error pl) = "track_ambiguous") then
          (None,
           Some (Error_Message (Error pl) +:+ ": "
                 +:+ Strings.Join (PossibleTrackIDs (Error pl)) ", "))
        else (None, Some (Error_Message (Error pl)))
    end.
Proof.
  intros Hv Hclient Hreq Hdo.
  unfold newDownload, fetchPayload. rewrite Hv.
  rewrite bind_run, NewClient_run, Hclient. cbn [fst snd].
  rewrite bind_run, (lift_run _ req) by exact Hreq.
  rewrite bind_run, (Do_run E client _ res) by exact Hdo.
  destruct (json_Decode E (Body res)) as [pl|msg]; [|reflexivity].
  repeat case_bool_decide; reflexivity.
Qed.

(** X10: a response whose body cannot be decoded makes [newDownload]
    return the parse error and no download, whatever the status of the
    response is, 401 and 200 included: the body is decoded before the
    status is looked at. *)
Theorem newDownload_unparsable_response {Client Disk : Type}
    (E : Collaborators Client Disk) (p : downloadParams) (w : World Disk)
    (client : Client) (req : Request) (res : Response) (err : string) :
  validateParams p = None →
  api_NewClient E (token p) (apibaseurl p) = (client, None) →
  client_NewRequest E client "GET" (requestURL (mkDownload p zeroPayload))
  = inl req →
  client_Do E (trace w ++ [EvNewClient (token p) (apibaseurl p)]) client
    (mkRequest (Method req)
       (buildQuery (mkDownload p zeroPayload) (ReqURL req)))
  = inl res →
  json_Decode E (Body res) = inr err →
  (newDownload E p w).1
  = (None, Some ("unable to parse API response - " +:+ err)).
Proof.
  intros Hv Hclient Hreq Hdo Hdec.
  rewrite (newDownload_responded E p w client req res) by assumption.
  by rewrite Hdec.
Qed.

(** X11: a decoded response with a status other than 200 never yields a
    download.  For 401 the error is the unauthorized message with the
    site inferred from the API base URL, whatever the payload says;
    otherwise it is the error message of the payload, followed for the
    type [track_ambiguous] by the possible track IDs joined with commas. *)
Theorem newDownload_error_status {Client Disk : Type}
    (E : Collaborators Client Disk) (p : downloadParams) (w : World Disk)
    (client : Client) (req : Request) (res : Response)
    (pl : downloadPayload) :
  validateParams p = None →
  api_NewClient E (token p) (apibaseurl p) = (client, None) →
  client_NewRequest E client "GET" (requestURL (mkDownload p zeroPayload))
  = inl req →
  client_Do E (trace w ++ [EvNewClient (token p) (apibaseurl p)]) client
    (mkRequest (Method req)
       (buildQuery (mkDownload p zeroPayload) (ReqURL req)))
  = inl res →
  json_Decode E (Body res) = inl pl →
  StatusCode res ≠ StatusOK →
  (newDownload E p w).1.1 = None
  ∧ (StatusCode res = StatusUnauthorized
     → (newDownload E p w).1.2
       = Some ("unauthorized request. Please run the configure command. You can find your API token at "
               +:+ config_InferSiteURL E (apibaseurl p) +:+ "/my/settings"))
  ∧ (StatusCode res ≠ StatusUnauthorized
     → Error_Type (Error pl) = "track_ambiguous"
     → (newDownload E p w).1.2
       = Some (Error_Message (Error pl) +:+ ": "
               +:+ Strings.Join (PossibleTrackIDs (Error pl)) ", "))
  ∧ (StatusCode res ≠ StatusUnauthorized
     → Error_Type (Error pl) ≠ "track_ambiguous"
     → (newDownload E p w).1.2 = Some (Error_Message (Error pl))).
Proof.
  intros Hv Hclient Hreq Hdo Hdec Hstatus.
  rewrite (newDownload_responded E p w client req res) by assumption.
  rewrite Hdec, (bool_decide_eq_false_2 _ Hstatus).
  repeat case_bool_decide; cbn [fst snd]; repeat split; try done;
    intros; congruence.
Qed.

Lemma newDownload_unparsable_response_witness :
  (newDownload
     (withDecodeError "unexpected end of JSON input"
        (sampleCollaborators (serveStatus 401) samplePayload))
     sampleParams emptyWorld).1
  = (None,
     Some "unable to parse API response - unexpected end of JSON input").
Proof.
  refine (newDownload_unparsable_response
            (withDecodeError "unexpected end of JSON input"
               (sampleCollaborators (serveStatus 401) samplePayload))
            sampleParams emptyWorld tt
            (mkRequest "GET"
               (mkURL (requestURL (mkDownload sampleParams zeroPayload)) ∅))
            (serveStatus 401 (mkRequest "GET" (mkURL "" ∅)))
            "unexpected end of JSON input" _ _ _ _ _);
    reflexivity.
Defined.

Lemma newDownload_error_status_witness :
  (newDownload (sampleCollaborators (serveStatus 400) ambiguousPayload)
     sampleParams emptyWorld).1.2
  = Some "exercise slug is not unique: go, rust".
Proof.
  refine (proj1 (proj2 (proj2
            (newDownload_error_status
               (sampleCollaborators (serveStatus 400) ambiguousPayload)
               sampleParams emptyWorld tt
               (mkRequest "GET"
                  (mkURL (requestURL (mkDownload sampleParams zeroPayload))
                     ∅))
               (serveStatus 400 (mkRequest "GET" (mkURL "" ∅)))
               ambiguousPayload _ _ _ _ _ _))) _ _);
    try reflexivity; discriminate.
Defined.

(** ** The legacy pattern and the sanitizer *)

Section Sanitizer.

Lemma string_app_inv (c : ascii) (t x y : string) :
  String c t = x +:+ y →
  (x = "" ∧ y = String c t) ∨ (∃ x', x = String c x' ∧ t = x' +:+ y).
Proof.
  destruct x as [|a x]; [by left|].
  rewrite string_app_cons. intros [= -> ->]. right. by exists x.
Qed.

Lemma hasByte_app (c : ascii) (s t : string) :
  hasByte c (s +:+ t) = (hasByte c s || hasByte c t)%bool.
Proof.
  induction s as [|a s IH]; [done|].
  rewrite string_app_cons. cbn [hasByte]. by rewrite IH, orb_assoc.
Qed.

Lemma allBytes_app (p : ascii → bool) (s t : string) :
  allBytes p (s +:+ t) = (allBytes p s && allBytes p t)%bool.
Proof.
  induction s as [|a s IH]; [done|].
  rewrite string_app_cons. cbn [allBytes]. by rewrite IH, andb_assoc.
Qed.

Lemma noSeparator_app (s t : string) :
  noSeparator (s +:+ t) = (noSeparator s && noSeparator t)%bool.
Proof.
  induction s as [|a s IH]; [done|].
  rewrite string_app_cons. cbn [noSeparator]. by rewrite IH, andb_assoc.
Qed.

Lemma noSeparator_hasByte (s : string) :
  noSeparator s = true → hasByte "/" s = false ∧ hasByte "\" s = false.
Proof.
  induction s as [|a s IH]; [done|]. cbn [noSeparator hasByte].
  intros [Ha Hs]%andb_prop. destruct (IH Hs) as [-> ->].
  unfold Regexp.slashes in Ha. apply negb_true_iff, orb_false_elim in Ha.
  destruct Ha as [-> ->]. done.
Qed.

Lemma digit_not_separator (c : ascii) :
  Regexp.digit c = true → Regexp.slashes c = false.
Proof. by destruct c as [[] [] [] [] [] [] [] []]. Qed.

Lemma allBytes_digit_noSeparator (s : string) :
  allBytes Regexp.digit s = true → noSeparator s = true.
Proof.
  induction s as [|a s IH]; [done|]. cbn [allBytes noSeparator].
  intros [Ha Hs]%andb_prop. by rewrite (digit_not_separator a Ha), IH.
Qed.

(** *** What a match consumes *)

Lemma matchStar_Some (p : ascii → bool) (k : string → option string)
    (s rest : string) :
  Regexp.matchStar p k s = Some rest →
  ∃ u v, s = u +:+ v ∧ allBytes p u = true ∧ k v = Some rest.
Proof.
  induction s as [|a s IH]; cbn [Regexp.matchStar].
  { intros H. by exists "", "". }
  destruct (p a) eqn:Hp.
  - destruct (Regexp.matchStar p k s) as [r|] eqn:Hs.
    + intros [= ->]. destruct (IH eq_refl) as (u & v & -> & Hu & Hk).
      exists (String a u), v. cbn [allBytes]. by rewrite Hp, Hu.
    + intros H. by exists "", (String a s).
  - intros H. by exists "", (String a s).
Qed.

Lemma matchHere_Class (p : ascii → bool) (re : list Regexp.atom)
    (s rest : string) :
  Regexp.matchHere (Regexp.Class p :: re) s = Some rest →
  ∃ c s', s = String c s' ∧ p c = true ∧ Regexp.matchHere re s' = Some rest.
Proof.
  cbn [Regexp.matchHere]. destruct s as [|c s]; [done|].
  destruct (p c) eqn:Hp; [|done]. intros H. by exists c, s.
Qed.

Lemma matchHere_literal (t : string) (re : list Regexp.atom)
    (s rest : string) :
  Regexp.matchHere (Regexp.literal t ++ re) s = Some rest →
  ∃ s', s = t +:+ s' ∧ Regexp.matchHere re s' = Some rest.
Proof.
  revert s. induction t as [|c t IH]; intros s.
  { intros H. by exists s. }
  cbn [Regexp.literal app]. unfold Regexp.Lit at 1.
  intros (c' & s' & -> & Hc & Hre)%matchHere_Class.
  apply Ascii.eqb_eq in Hc as <-.
  destruct (IH s' Hre) as (s'' & -> & Hre'). by exists s''.
Qed.

Lemma matchHere_literal_app (t : string) (re : list Regexp.atom)
    (s : string) :
  Regexp.matchHere (Regexp.literal t ++ re) (t +:+ s) = Regexp.matchHere re s.
Proof.
  induction t as [|c t IH]; [done|].
  cbn [Regexp.literal app]. unfold Regexp.Lit at 1.
  rewrite string_app_cons. cbn [Regexp.matchHere].
  by rewrite Ascii.eqb_refl.
Qed.

(** What the legacy pattern matches at the start of a file name. *)
Lemma legacyPattern_match (file slug rest : string) :
  Regexp.matchHere (legacyPattern slug) file = Some rest →
  ∃ dir c digits,
    file = dir +:+ String c (slug +:+ "-" +:+ digits +:+ "/" +:+ rest)
    ∧ allBytes Regexp.dot dir = true
    ∧ Regexp.slashes c = true
    ∧ allBytes Regexp.digit digits = true.
Proof.
  unfold legacyPattern. cbn [app Regexp.matchHere].
  intros (dir & v & -> & Hdir & Hk)%matchStar_Some.
  change (Regexp.matchHere
            (Regexp.Class Regexp.slashes
               :: Regexp.literal slug
                  ++ [Regexp.Lit "-"; Regexp.Star Regexp.digit;
                      Regexp.Lit "/"]) v = Some rest) in Hk.
  apply matchHere_Class in Hk as (c & v1 & -> & Hc & Hk).
  apply matchHere_literal in Hk as (v2 & -> & Hk).
  unfold Regexp.Lit at 1 in Hk.
  apply matchHere_Class in Hk as (c2 & v3 & -> & Hc2 & Hk).
  apply Ascii.eqb_eq in Hc2 as <-.
  cbn [Regexp.matchHere] in Hk.
  apply matchStar_Some in Hk as (digits & v4 & -> & Hdigits & Hk).
  change (Regexp.matchHere [Regexp.Lit "/"] v4 = Some rest) in Hk.
  unfold Regexp.Lit in Hk.
  apply matchHere_Class in Hk as (c3 & v5 & -> & Hc3 & Hk).
  apply Ascii.eqb_eq in Hc3 as <-. cbn [Regexp.matchHere] in Hk.
  injection Hk as ->. by exists dir, c, digits.
Qed.

Lemma Replace_same (s : string) (old new : ascii) :
  hasByte old s = false → Strings.Replace s old new = s.
Proof.
  induction s as [|a s IH]; [done|]. cbn [hasByte Strings.Replace].
  intros [Ha Hs]%orb_false_elim. by rewrite Ha, IH.
Qed.

Lemma Replace_removes (s : string) (old new : ascii) :
  new ≠ old → hasByte old (Strings.Replace s old new) = false.
Proof.
  intros Hne. induction s as [|a s IH]; [done|].
  cbn [Strings.Replace hasByte]. rewrite IH, orb_false_r.
  destruct (Ascii.eqb a old) eqn:Ha; [|done].
  by apply Ascii.eqb_neq.
Qed.

(** X12: the sanitized path has only the separator of the host in it: no
    backslash on a host whose separator is the slash, and no slash on any
    other host. *)
Theorem sanitize_native_separators (sep : ascii) (file slug : string) :
  hasByte (if Ascii.eqb sep "/" then "\" else "/")%char
    (sanitizeLegacyNumericSuffixFilepath sep file slug) = false.
Proof.
  unfold sanitizeLegacyNumericSuffixFilepath, Filepath.FromSlash.
  destruct (Ascii.eqb sep "/") eqn:Hsep.
  - by apply Replace_removes.
  - apply Replace_removes. by apply Ascii.eqb_neq.
Qed.

(** X13: for a slug of letters, digits, hyphens and underscores, the
    sanitizer drops nothing, or it drops a prefix of the shape the legacy
    pattern describes: any bytes without a line feed, a slash or
    backslash, the slug, a hyphen, digits (possibly none) and a slash;
    what follows is kept, with its separators made native. *)
Theorem sanitize_drops_legacy_prefix (sep : ascii) (file slug : string) :
  literalSlug slug = true →
  sanitizeLegacyNumericSuffixFilepath sep file slug
  = Filepath.FromSlash sep (Strings.Replace file "\" "/")
  ∨ ∃ dir c digits kept,
      file = dir +:+ String c (slug +:+ "-" +:+ digits +:+ "/" +:+ kept)
      ∧ allBytes Regexp.dot dir = true
      ∧ Regexp.slashes c = true
      ∧ allBytes Regexp.digit digits = true
      ∧ sanitizeLegacyNumericSuffixFilepath sep file slug
        = Filepath.FromSlash sep (Strings.Replace kept "\" "/").
Proof.
  intros _.
  unfold sanitizeLegacyNumericSuffixFilepath, Regexp.MatchString,
    Regexp.ReplaceAll.
  destruct (Regexp.matchHere (legacyPattern slug) file) as [rest|] eqn:Hm.
  - right. destruct (legacyPattern_match _ _ _ Hm)
      as (dir & c & digits & Hfile & Hdir & Hc & Hdigits).
    exists dir, c, digits, rest. by repeat split.
  - by left.
Qed.

Lemma sanitize_drops_legacy_prefix_witness :
  sanitizeLegacyNumericSuffixFilepath "/"
    "/go/hello-world-3/sub\hello.go" "hello-world"
  = Filepath.FromSlash "/"
      (Strings.Replace "/go/hello-world-3/sub\hello.go" "\" "/")
  ∨ ∃ dir c digits kept,
      "/go/hello-world-3/sub\hello.go"
      = dir +:+ String c ("hello-world" +:+ "-" +:+ digits +:+ "/" +:+ kept)
      ∧ allBytes Regexp.dot dir = true
      ∧ Regexp.slashes c = true
      ∧ allBytes Regexp.digit digits = true
      ∧ sanitizeLegacyNumericSuffixFilepath "/"
          "/go/hello-world-3/sub\hello.go" "hello-world"
        = Filepath.FromSlash "/" (Strings.Replace kept "\" "/").
Proof.
  apply (sanitize_drops_legacy_prefix "/"
           "/go/hello-world-3/sub\hello.go" "hello-world").
  reflexivity.
Defined.

(** X14: for a slug of letters, digits, hyphens and underscores, a file
    name without a slash is never stripped, whatever backslashes it has:
    the pattern ends in a slash.  Only its separators are made native. *)
Theorem sanitize_without_slash (sep : ascii) (file slug : string) :
  literalSlug slug = true →
  hasByte "/" file = false →
  sanitizeLegacyNumericSuffixFilepath sep file slug
  = Filepath.FromSlash sep (Strings.Replace file "\" "/").
Proof.
  intros _ Hfile.
  unfold sanitizeLegacyNumericSuffixFilepath, Regexp.MatchString,
    Regexp.ReplaceAll.
  destruct (Regexp.matchHere (legacyPattern slug) file) as [rest|] eqn:Hm;
    [|done].
  exfalso.
  destruct (legacyPattern_match _ _ _ Hm) as (dir & c & digits & -> & _).
  revert Hfile.
  rewrite hasByte_app. cbn [hasByte]. rewrite !hasByte_app. cbn [hasByte].
  rewrite !orb_true_r. done.
Qed.

Lemma sanitize_without_slash_witness :
  sanitizeLegacyNumericSuffixFilepath "/" "\exercise-2\foo\bar.rb" "exercise"
  = "/exercise-2/foo/bar.rb".
Proof.
  apply (sanitize_without_slash "/" "\exercise-2\foo\bar.rb" "exercise");
    reflexivity.
Defined.

End Sanitizer.

Lemma literalByte_not_separator (c : ascii) :
  literalByte c = true → Regexp.slashes c = false.
Proof. by destruct c as [[] [] [] [] [] [] [] []]. Qed.

Lemma literalSlug_noSeparator (slug : string) :
  literalSlug slug = true → noSeparator slug = true.
Proof.
  unfold literalSlug. induction slug as [|a slug IH]; [done|].
  cbn [allBytes noSeparator]. intros [Ha Hs]%andb_prop.
  by rewrite (literalByte_not_separator a Ha), IH.
Qed.

(** *** Where the greedy star stops *)

(** When the continuation fails after every further byte, the star takes
    none. *)
Lemma matchStar_none_later (p : ascii → bool) (k : string → option string)
    (v : string) :
  (∀ x y, v = x +:+ y → x ≠ "" → k y = None) →
  Regexp.matchStar p k v = k v.
Proof.
  induction v as [|a v IH]; [done|]. intros Hlater.
  cbn [Regexp.matchStar]. destruct (p a); [|done].
  rewrite IH.
  - by rewrite (Hlater (String a "") v).
  - intros x y -> Hx. by apply (Hlater (String a x) y).
Qed.

(** The star takes the bytes of [u] when the continuation matches right
    after them and nowhere later. *)
Lemma matchStar_greedy (p : ascii → bool) (k : string → option string)
    (u v rest : string) :
  allBytes p u = true →
  k v = Some rest →
  (∀ x y, v = x +:+ y → x ≠ "" → k y = None) →
  Regexp.matchStar p k (u +:+ v) = Some rest.
Proof.
  intros Hu Hk Hlater. induction u as [|a u IH].
  { by rewrite matchStar_none_later. }
  cbn [allBytes] in Hu. apply andb_prop in Hu as [Ha Hu].
  rewrite string_app_cons. cbn [Regexp.matchStar].
  by rewrite Ha, (IH Hu).
Qed.

(** A pattern that ends in a literal byte matches only text with that
    byte in it. *)
Lemma matchHere_last_byte (re : list Regexp.atom) (c : ascii)
    (s rest : string) :
  Regexp.matchHere (re ++ [Regexp.Lit c]) s = Some rest →
  hasByte c s = true.
Proof.
  revert s. induction re as [|[p|p] re IH]; intros s.
  - cbn [app]. unfold Regexp.Lit.
    intros (c' & s' & -> & Hc & _)%matchHere_Class.
    apply Ascii.eqb_eq in Hc as <-. cbn [hasByte].
    by rewrite Ascii.eqb_refl.
  - cbn [app]. intros (c' & s' & -> & _ & Hre)%matchHere_Class.
    cbn [hasByte]. by rewrite (IH s' Hre), orb_true_r.
  - cbn [app Regexp.matchHere].
    intros (u & v & -> & _ & Hre)%matchStar_Some.
    by rewrite hasByte_app, (IH v Hre), orb_true_r.
Qed.

(** The part of the legacy pattern after [.*]. *)
Lemma legacyPattern_tail_none (slug body name x y : string) :
  noSeparator body = true →
  noSeparator name = true →
  body +:+ "/" +:+ name = x +:+ y →
  Regexp.matchHere
    (Regexp.Class Regexp.slashes
       :: Regexp.literal slug
          ++ [Regexp.Lit "-"; Regexp.Star Regexp.digit; Regexp.Lit "/"])
    y = None.
Proof.
  intros Hbody Hname. revert x.
  assert (Hplain : ∀ t x, noSeparator t = true → t = x +:+ y →
            Regexp.matchHere
              (Regexp.Class Regexp.slashes
                 :: Regexp.literal slug
                    ++ [Regexp.Lit "-"; Regexp.Star Regexp.digit;
                        Regexp.Lit "/"]) y = None).
  { intros t. induction t as [|a t IH]; intros x Ht Heq.
    - destruct x; [|done]. by destruct y.
    - cbn [noSeparator] in Ht. apply andb_prop in Ht as [Ha Ht].
      apply string_app_inv in Heq as [[-> ->]|(x' & -> & ->)].
      + cbn [Regexp.matchHere]. apply negb_true_iff in Ha. by rewrite Ha.
      + by apply (IH x'). }
  induction body as [|a body IH]; intros x Heq.
  - change ("" +:+ "/" +:+ name) with (String "/" name) in Heq.
    apply string_app_inv in Heq as [[-> ->]|(x' & -> & Heq)].
    + cbn [Regexp.matchHere Regexp.slashes]. cbn [Ascii.eqb orb].
      change (Regexp.slashes "/") with true. cbn iota.
      destruct (Regexp.matchHere _ name) as [rest|] eqn:Hm; [|done].
      exfalso.
      change (Regexp.literal slug
              ++ [Regexp.Lit "-"; Regexp.Star Regexp.digit; Regexp.Lit "/"])
        with (Regexp.literal slug
              ++ [Regexp.Lit "-"; Regexp.Star Regexp.digit]
              ++ [Regexp.Lit "/"]) in Hm.
      rewrite (assoc_L (++)) in Hm.
      apply matchHere_last_byte in Hm.
      destruct (noSeparator_hasByte name Hname) as [Hslash _]. congruence.
    + by apply (Hplain name x').
  - cbn [noSeparator] in Hbody. apply andb_prop in Hbody as [Ha Hbody].
    rewrite string_app_cons in Heq.
    apply string_app_inv in Heq as [[-> ->]|(x' & -> & Heq)].
    + cbn [Regexp.matchHere]. apply negb_true_iff in Ha. by rewrite Ha.
    + by apply (IH Hbody x').
Qed.

(** X15: for a slug of letters, digits, hyphens and underscores, a file
    name that consists of a directory prefix without a line feed, a slash
    or backslash, the slug, a hyphen, digits, a slash and a name free of
    slashes and backslashes is sanitized to that name, on every host. *)
Theorem sanitize_strips_suffixed_directory
    (sep c : ascii) (dir slug digits name : string) :
  literalSlug slug = true →
  allBytes Regexp.dot dir = true →
  Regexp.slashes c = true →
  allBytes Regexp.digit digits = true →
  noSeparator name = true →
  sanitizeLegacyNumericSuffixFilepath sep
    (dir +:+ String c (slug +:+ "-" +:+ digits +:+ "/" +:+ name)) slug
  = name.
Proof.
  intros Hliteral Hdir Hc Hdigits Hname.
  pose proof (literalSlug_noSeparator slug Hliteral) as Hslug.
  assert (Hmatch :
    Regexp.matchHere (legacyPattern slug)
      (dir +:+ String c (slug +:+ "-" +:+ digits +:+ "/" +:+ name))
    = Some name).
  { unfold legacyPattern. cbn [app Regexp.matchHere].
    apply matchStar_greedy; [done| |].
    - change (Regexp.matchHere
                (Regexp.Class Regexp.slashes
                   :: Regexp.literal slug
                      ++ [Regexp.Lit "-"; Regexp.Star Regexp.digit;
                          Regexp.Lit "/"])
                (String c (slug +:+ "-" +:+ digits +:+ "/" +:+ name))
              = Some name).
      cbn [Regexp.matchHere]. rewrite Hc, matchHere_literal_app.
      change [Regexp.Lit "-"; Regexp.Star Regexp.digit; Regexp.Lit "/"]
        with (Regexp.literal "-"
              ++ [Regexp.Star Regexp.digit; Regexp.Lit "/"]).
      rewrite matchHere_literal_app.
      change (Regexp.matchHere [Regexp.Star Regexp.digit; Regexp.Lit "/"])
        with (Regexp.matchStar Regexp.digit
                (Regexp.matchHere [Regexp.Lit "/"])).
      apply matchStar_greedy; [done|reflexivity|].
      intros x y Heq Hx.
      change ("/" +:+ name) with (String "/" name) in Heq.
      apply string_app_inv in Heq as [[-> _]|(x' & -> & Heq)]; [done|].
      destruct y as [|a y]; [done|].
      assert (Ha : hasByte "/" (String a y) = false).
      { destruct (noSeparator_hasByte name Hname) as [Hs _].
        rewrite Heq, hasByte_app in Hs.
        by apply orb_false_elim in Hs as [_ ?]. }
      cbn [hasByte] in Ha. apply orb_false_elim in Ha as [Ha _].
      change (Regexp.matchHere [Regexp.Lit "/"] (String a y))
        with (if Ascii.eqb "/" a then Some y else None).
      by rewrite Ascii.eqb_sym, Ha.
    - intros x y Heq Hx.
      apply string_app_inv in Heq as [[-> _]|(x' & -> & Heq)]; [done|].
      apply (legacyPattern_tail_none slug (slug +:+ "-" +:+ digits) name x').
      + rewrite !noSeparator_app, Hslug.
        by rewrite (allBytes_digit_noSeparator digits Hdigits).
      + done.
      + by rewrite <- Heq, !string_app_assoc. }
  unfold sanitizeLegacyNumericSuffixFilepath, Regexp.MatchString,
    Regexp.ReplaceAll.
  rewrite Hmatch. rewrite bool_decide_eq_true_2 by eauto.
  change ("" +:+ name) with name.
  destruct (noSeparator_hasByte name Hname) as [Hslash Hback].
  rewrite Replace_same by done.
  unfold Filepath.FromSlash. destruct (Ascii.eqb sep "/"); [done|].
  by apply Replace_same.
Qed.

Lemma sanitize_strips_suffixed_directory_witness :
  sanitizeLegacyNumericSuffixFilepath "/"
    "C:\Users\alice\exercism\go\hello-world-12/hello_test.go" "hello-world"
  = "hello_test.go".
Proof.
  apply (sanitize_strips_suffixed_directory "/" "\"
           "C:\Users\alice\exercism\go" "hello-world" "12" "hello_test.go");
    reflexivity.
Defined.

(** ** The loop over the files *)

Section Loop.

Context {Client Disk : Type}.
Variable E : Collaborators Client Disk.

Lemma onDisk_run (ev : event) (op : Disk → Disk * error) (w : World Disk) :
  onDisk ev op w
  = (match (op (disk w)).2 with
     | None => Ok tt
     | Some msg => Err msg
     end,
     mkWorld (trace w ++ [ev]) (op (disk w)).1).
Proof. unfold onDisk. by destruct (op (disk w)) as [dk [msg|]]. Qed.

(** The outcomes of [requestFile], with what each adds to the trace. *)
Lemma requestFile_shape (d : download) (filename : string) (w : World Disk) :
  ∃ (added : list event) (r : result (option Response)),
    requestFile E d filename w = (r, mkWorld (trace w ++ added) (disk w))
    ∧ (added = []
       ∨ added = [EvNewClient (token (params d)) (apibaseurl (params d))]
       ∨ ∃ req, added = [EvNewClient (token (params d))
                           (apibaseurl (params d)); EvDo req]).
Proof.
  unfold requestFile. rewrite bind_run.
  destruct (url_ParseRequestURI E _) as [url|msg]; cbn [lift].
  2:{ exists [], (Err msg). rewrite (right_id_L [] (++)). destruct w.
      split; [done | by left]. }
  unfold ret at 1. rewrite bind_run, NewClient_run, bind_run.
  destruct (client_NewRequest E _ "GET" _) as [req|msg]; cbn [lift].
  2:{ eexists [_], (Err msg). split; [done | by right; left]. }
  unfold ret at 1. rewrite bind_run. unfold Do. cbn [trace disk].
  rewrite <- (assoc_L (++)). cbn [app].
  destruct (client_Do E _ _ req) as [res|msg].
  2:{ eexists [_; _], (Err msg). split; [done | right; right; by exists req]. }
  destruct (negb (bool_decide (StatusCode res = StatusOK)));
    [|destruct (bool_decide (Get (Header res) "Content-Length" = "0"))];
    eexists [_; _], (Ok _); (split; [done | right; right; by exists req]).
Qed.

Lemma writeFiles_app_bind (d : download) (files files' : list string)
    (w : World Disk) :
  writeFiles E d (files ++ files') w
  = (writeFiles E d files ≫= λ _, writeFiles E d files') w.
Proof.
  revert w. induction files as [|filename files IH]; intros w; [done|].
  cbn [app writeFiles]. rewrite !bind_run.
  destruct (requestFile E d filename w) as [[[res|]|msg] w1]; [|done|done].
  rewrite !bind_run. destruct (MkdirAll E _ w1) as [[[]|msg] w2]; [|done].
  rewrite !bind_run. destruct (Create E _ w2) as [[[]|msg] w3]; [|done].
  rewrite !bind_run. destruct (Copy E _ _ w3) as [[[]|msg] w4]; [|done].
  rewrite IH. by rewrite bind_run.
Qed.

(** X16: the loop over a list of file names followed by another list is
    the loop over the first list and then, from the world it leaves and
    unless it failed, the loop over the second. *)
Theorem writeFiles_app (d : download) (files files' : list string)
    (w : World Disk) :
  writeFiles E d (files ++ files') w
  = match writeFiles E d files w with
    | (Ok _, w1) => writeFiles E d files' w1
    | (Err msg, w1) => (Err msg, w1)
    end.
Proof.
  rewrite writeFiles_app_bind, bind_run.
  by destruct (writeFiles E d files w) as [[[]|msg] w1].
Qed.

(** X17: when the request for a file fails in the transport, the loop
    stops with that error: the world is the one the earlier files left,
    with the failed request added to the trace; what was written stays on
    the disk and the remaining files are not requested.  When the URL of
    the file cannot be parsed, the loop stops in the world the earlier
    files left. *)
Theorem writeFiles_abort_keeps_earlier (d : download)
    (earlier rest : list string) (filename : string) (w w1 : World Disk) :
  writeFiles E d earlier w = (Ok tt, w1) →
  (∀ msg,
     url_ParseRequestURI E
       (FileDownloadBaseURL (Solution (payload d)) +:+ filename) = inr msg
     → writeFiles E d (earlier ++ filename :: rest) w = (Err msg, w1))
  ∧ (∀ url req msg,
       url_ParseRequestURI E
         (FileDownloadBaseURL (Solution (payload d)) +:+ filename) = inl url
       → client_NewRequest E
           (api_NewClient E (token (params d)) (apibaseurl (params d))).1
           "GET" (url_String E url) = inl req
       → client_Do E
           (trace w1
            ++ [EvNewClient (token (params d)) (apibaseurl (params d))])
           (api_NewClient E (token (params d)) (apibaseurl (params d))).1 req
         = inr msg
       → writeFiles E d (earlier ++ filename :: rest) w
         = (Err msg,
            afterRequest w1 (token (params d)) (apibaseurl (params d)) req)).
Proof.
  intros Hearlier. split.
  - intros msg Hurl. rewrite writeFiles_app_bind, bind_run, Hearlier.
    cbn [writeFiles]. unfold requestFile. rewrite !bind_run, Hurl. done.
  - intros url req msg Hurl Hreq Hdo.
    rewrite writeFiles_app_bind, bind_run, Hearlier.
    cbn [writeFiles]. unfold requestFile.
    rewrite !bind_run, (lift_run _ url) by exact Hurl.
    rewrite !bind_run, NewClient_run.
    rewrite !bind_run, (lift_run _ req) by exact Hreq.
    rewrite !bind_run. unfold Do. cbn [trace disk]. rewrite Hdo.
    unfold afterRequest. by rewrite <- (assoc_L (++)).
Qed.

Lemma fileEvent_cons (d : download) (filename : string)
    (files : list string) (ev : event) :
  fileEvent E d files ev → fileEvent E d (filename :: files) ev.
Proof.
  destruct ev as [| | path | path | path body]; cbn [fileEvent]; try done;
    intros (f & Hf & ->); exists f; (split; [by right | done]).
Qed.

Lemma requestsOf_app (evs evs' : list event) :
  requestsOf (evs ++ evs') = requestsOf evs ++ requestsOf evs'.
Proof. unfold requestsOf. apply omap_app. Qed.

(** X18: whatever the collaborators answer, the loop adds to the trace only
    events of its own files: client constructions with the token and base
    URL of the parameters, requests, and directory creations, file
    creations and copies at the write paths of the names in the list; it
    sends at most one request per file. *)
Theorem writeFiles_events (d : download) (files : list string)
    (w : World Disk) :
  ∃ added,
    trace (writeFiles E d files w).2 = trace w ++ added
    ∧ Forall (fileEvent E d files) added
    ∧ (length (requestsOf added) ≤ length files)%nat.
Proof.
  revert w. induction files as [|filename files IH]; intros w.
  { exists []. cbn. by rewrite (right_id_L [] (++)). }
  cbn [writeFiles]. rewrite bind_run.
  destruct (requestFile_shape d filename w) as (added & r & -> & Hshape).
  assert (Hadded : Forall (fileEvent E d (filename :: files)) added
                   ∧ (length (requestsOf added) ≤ 1)%nat).
  { destruct Hshape as [->|[->|[req ->]]]; (split; [|cbn; lia]);
      repeat constructor. }
  destruct Hadded as [Hadded Hcount].
  destruct r as [[res|]|msg].
  - unfold MkdirAll, Create, Copy.
    rewrite bind_run, onDisk_run. cbn [trace disk].
    set (path := Filepath.Join _).
    assert (Hsan : ∃ f, f ∈ filename :: files
              ∧ path = Filepath.Join
                         [destination E d;
                          sanitizeLegacyNumericSuffixFilepath "/" f
                            (Slug (exercise d))]).
    { exists filename. split; [by left | done]. }
    assert (Hmk : fileEvent E d (filename :: files)
                    (EvMkdirAll (Filepath.Dir path))).
    { destruct Hsan as (f & Hf & Hp). exists f. by rewrite Hp. }
    destruct ((os_MkdirAll E (disk w) (Filepath.Dir path)).2) as [m|].
    { exists (added ++ [EvMkdirAll (Filepath.Dir path)]).
      cbn [snd trace]. rewrite (assoc_L (++)). split; [done|].
      split; [apply Forall_app; by repeat constructor|].
      rewrite requestsOf_app, length_app. cbn. lia. }
    rewrite bind_run, onDisk_run. cbn [trace disk].
    destruct ((os_Create E _ path).2) as [m|].
    { exists (added ++ [EvMkdirAll (Filepath.Dir path); EvCreate path]).
      cbn [snd trace]. rewrite <- !(assoc_L (++)). split; [done|].
      split; [apply Forall_app; by repeat constructor|].
      rewrite requestsOf_app, length_app. cbn. lia. }
    rewrite bind_run, onDisk_run. cbn [trace disk].
    destruct ((io_Copy E _ path (Body res)).2) as [m|].
    { exists (added ++ [EvMkdirAll (Filepath.Dir path); EvCreate path;
                        EvCopy path (Body res)]).
      cbn [snd trace]. rewrite <- !(assoc_L (++)). split; [done|].
      split; [apply Forall_app; by repeat constructor|].
      rewrite requestsOf_app, length_app. cbn. lia. }
    match goal with
    | |- context [writeFiles E d files ?w'] =>
        destruct (IH w') as (added' & -> & Hall & Hlen)
    end.
    cbn [trace].
    exists (added ++ [EvMkdirAll (Filepath.Dir path); EvCreate path;
                      EvCopy path (Body res)] ++ added').
    rewrite <- !(assoc_L (++)). split; [done|]. split.
    + apply Forall_app. split; [done|]. apply Forall_app. split.
      * by repeat constructor.
      * eapply Forall_impl; [exact Hall|]. apply fileEvent_cons.
    + rewrite !requestsOf_app, !length_app. cbn. lia.
  - destruct (IH (mkWorld (trace w ++ added) (disk w)))
      as (added' & -> & Hall & Hlen).
    cbn [trace]. exists (added ++ added').
    rewrite <- (assoc_L (++)). split; [done|]. split.
    + apply Forall_app. split; [done|].
      eapply Forall_impl; [exact Hall|]. apply fileEvent_cons.
    + rewrite requestsOf_app, length_app. cbn [length]. lia.
  - exists added. cbn [snd trace]. split; [done|]. split; [done|].
    cbn [length]. lia.
Qed.

(** X19: when, for every file of the solution, its URL can be parsed,
    its request can be built, and the transport answers that request,
    whenever it is sent, with a status other than 200 or with a
    [Content-Length] of ["0"], then [writeSolutionFiles], for parameters
    not from a local exercise, returns no error, leaves the disk as it
    was, and has sent one request for each file of the solution. *)
Theorem writeSolutionFiles_all_swallowed (d : download) (w : World Disk) :
  fromExercise (params d) = false →
  (∀ filename, filename ∈ Files (Solution (payload d)) →
     ∃ url req,
       url_ParseRequestURI E
         (FileDownloadBaseURL (Solution (payload d)) +:+ filename) = inl url
       ∧ client_NewRequest E
           (api_NewClient E (token (params d)) (apibaseurl (params d))).1
           "GET" (url_String E url) = inl req
       ∧ ∀ history, ∃ res,
           client_Do E history
             (api_NewClient E (token (params d)) (apibaseurl (params d))).1
             req = inl res
           ∧ (StatusCode res ≠ StatusOK
              ∨ Get (Header res) "Content-Length" = "0")) →
  (writeSolutionFiles E d w).1 = Ok tt
  ∧ disk (writeSolutionFiles E d w).2 = disk w
  ∧ ∃ added,
      trace (writeSolutionFiles E d w).2 = trace w ++ added
      ∧ length (requestsOf added)
        = length (Files (Solution (payload d))).
Proof.
  intros Hfrom. unfold writeSolutionFiles. rewrite Hfrom.
  generalize (Files (Solution (payload d))) as files.
  intros files Hfiles. revert w.
  induction files as [|filename files IH]; intros w.
  { cbn. repeat split. exists []. by rewrite (right_id_L [] (++)). }
  destruct (Hfiles filename) as (url & req & Hurl & Hreq & Hdo);
    [by left|].
  destruct (Hdo (trace w ++ [EvNewClient (token (params d))
                               (apibaseurl (params d))]))
    as (res & Hres & Hskip).
  cbn [writeFiles]. rewrite bind_run.
  rewrite (requestFile_swallowed E d filename w url req res) by assumption.
  destruct (IH (λ f Hf, Hfiles f (list_elem_of_further _ _ _ Hf))
              (afterRequest w (token (params d)) (apibaseurl (params d))
                 req)) as (Hok & Hdisk & added & Htrace & Hlen).
  split; [done|]. split; [done|].
  exists ([EvNewClient (token (params d)) (apibaseurl (params d)); EvDo req]
          ++ added).
  rewrite Htrace. unfold afterRequest. cbn [trace].
  rewrite <- (assoc_L (++)). split; [done|].
  rewrite requestsOf_app, length_app, Hlen. done.
Qed.

End Loop.

Lemma writeSolutionFiles_all_swallowed_witness :
  (writeSolutionFiles notFoundCollaborators sampleDownload emptyWorld).1
  = Ok tt
  ∧ disk (writeSolutionFiles notFoundCollaborators sampleDownload
            emptyWorld).2
    = ∅
  ∧ strictParse "" = inr "empty url".
Proof.
  destruct (writeSolutionFiles_all_swallowed notFoundCollaborators
              sampleDownload emptyWorld eq_refl) as (Hok & Hdisk & _).
  - intros filename Hin.
    apply elem_of_cons in Hin as [->|Hin].
    { eexists _, _. split; [reflexivity|]. split; [reflexivity|].
      intros history. eexists. split; [reflexivity|]. left. discriminate. }
    apply elem_of_cons in Hin as [->|Hin].
    { eexists _, _. split; [reflexivity|]. split; [reflexivity|].
      intros history. eexists. split; [reflexivity|]. left. discriminate. }
    by apply elem_of_nil in Hin.
  - split; [exact Hok|]. split; [exact Hdisk | reflexivity].
Defined.

Lemma writeFiles_abort_keeps_earlier_witness :
  (writeFiles flakyCollaborators sampleDownload
     (["exercise.go"] ++ "README.md" :: ["notes.txt"]) emptyWorld).1
  = Err "connection reset by peer"
  ∧ disk (writeFiles flakyCollaborators sampleDownload
            (["exercise.go"] ++ "README.md" :: ["notes.txt"]) emptyWorld).2
    = {["workspace/teams/acme/users/bob/go/exercise/exercise.go"
        := "package main"]}
  ∧ requestsOf
      (trace (writeFiles flakyCollaborators sampleDownload
                (["exercise.go"] ++ "README.md" :: ["notes.txt"])
                emptyWorld).2)
    = [mkRequest "GET"
         (mkURL "https://api.exercism.io/v1/solutions/abc123/files/exercise.go" ∅);
       mkRequest "GET"
         (mkURL "https://api.exercism.io/v1/solutions/abc123/files/README.md" ∅)]
  ∧ writeFiles flakyCollaborators sampleDownload
      (["exercise.go"] ++ "bad name.go" :: ["notes.txt"]) emptyWorld
    = (Err "invalid character in URL",
       (writeFiles flakyCollaborators sampleDownload ["exercise.go"]
          emptyWorld).2).
Proof.
  destruct (writeFiles_abort_keeps_earlier flakyCollaborators sampleDownload
              ["exercise.go"] ["notes.txt"] "README.md" emptyWorld
              (writeFiles flakyCollaborators sampleDownload ["exercise.go"]
                 emptyWorld).2 eq_refl) as [_ Htransport].
  destruct (writeFiles_abort_keeps_earlier flakyCollaborators sampleDownload
              ["exercise.go"] ["notes.txt"] "bad name.go" emptyWorld
              (writeFiles flakyCollaborators sampleDownload ["exercise.go"]
                 emptyWorld).2 eq_refl) as [Hparse _].
  rewrite (Htransport
             (mkURL "https://api.exercism.io/v1/solutions/abc123/files/README.md" ∅)
             (mkRequest "GET"
                (mkURL "https://api.exercism.io/v1/solutions/abc123/files/README.md" ∅))
             "connection reset by peer" eq_refl eq_refl eq_refl).
  rewrite (Hparse "invalid character in URL" eq_refl).
  repeat split; reflexivity.
Defined.

(** ** More on the destination root and the two pipelines *)

Lemma Clean_idempotent (path : string) :
  Filepath.Clean (Filepath.Clean path) = Filepath.Clean path.
Proof.
  destruct (decide (path = "")) as [->|Hne]; [done|].
  rewrite (Clean_nonempty path Hne).
  assert (Hout : cleanStack (Filepath.isRooted path)
                   (foldl (Filepath.cleanStep (Filepath.isRooted path)) []
                      (Strings.Split path "/"))).
  { apply foldl_cleanStack; [apply Split_noSlash | apply cleanStack_nil]. }
  set (out := foldl _ [] _) in *.
  rewrite Clean_nonempty by (by apply render_nonempty).
  by rewrite isRooted_render, foldl_Split_render.
Qed.

Lemma Join_second_nonempty (e e' e'' : string) :
  e' ≠ "" → ∃ path, Filepath.Join [e; e'; e''] = Filepath.Clean path.
Proof.
  intros Hne. cbn [Filepath.Join].
  destruct (bool_decide (e = "")); [|by eexists].
  rewrite (bool_decide_eq_false_2 _ Hne). by eexists.
Qed.

(** X20: the destination root of a team solution, and of a solution of
    another user, is a path in clean form, whatever the workspace, the
    team slug and the handle are: cleaning it again changes nothing. *)
Theorem solutionRoot_is_clean (d : download) :
  (isTeamSolution d || solutionBelongsToOtherUser d)%bool = true →
  Filepath.Clean (solutionRoot d) = solutionRoot d.
Proof.
  unfold solutionRoot. intros Hany.
  destruct (solutionBelongsToOtherUser d).
  - destruct (Join_second_nonempty
                (if isTeamSolution d
                 then Filepath.Join
                        [workspace (params d); "teams";
                         Team_Slug (Solution_Team (Solution (payload d)))]
                 else workspace (params d))
                "users"
                (User_Handle (Solution_User (Solution (payload d)))))
      as [path ->]; [done|].
    apply Clean_idempotent.
  - rewrite orb_false_r in Hany. rewrite Hany.
    destruct (Join_second_nonempty (workspace (params d)) "teams"
                (Team_Slug (Solution_Team (Solution (payload d)))))
      as [path ->]; [done|].
    apply Clean_idempotent.
Qed.

Lemma solutionRoot_is_clean_witness :
  Filepath.Clean
    (solutionRoot
       (mkDownload
          (mkParams "" "abc123" "secret" "https://api.exercism.io/v1"
             "/home//alice/./exercism/" "" "" false true)
          samplePayload))
  = solutionRoot
      (mkDownload
         (mkParams "" "abc123" "secret" "https://api.exercism.io/v1"
            "/home//alice/./exercism/" "" "" false true)
         samplePayload).
Proof. apply solutionRoot_is_clean. reflexivity. Defined.

(** X21: the two pipelines give every URL the same query exactly when one
    of slug and uuid is set: with neither the flat pipeline adds an empty
    [exercise_id] where the struct pipeline adds nothing, and with both
    the struct pipeline adds the slug where the flat pipeline adds
    nothing. *)
Theorem pipelines_same_query_iff (p : downloadParams) (pl : downloadPayload) :
  (∀ url, Flat.buildQuery (toFlat p) url = buildQuery (mkDownload p pl) url)
  ↔ slugXorUUID p.
Proof.
  split; [|intros Hxor url; by apply flat_buildQuery].
  intros Hsame. specialize (Hsame (mkURL "" ∅)).
  apply (f_equal (λ url, Query url !! "exercise_id")) in Hsame.
  unfold slugXorUUID.
  destruct (decide (slug p = "")) as [Hs|Hs];
    destruct (decide (uuid p = "")) as [Hu|Hu]; [|by right|by left|].
  - exfalso. revert Hsame.
    unfold Flat.buildQuery, buildQuery, isEmpty.
    cbn [toFlat Flat.uuid Flat.slug Flat.track Flat.team params Query].
    rewrite (bool_decide_eq_true_2 _ Hu), (bool_decide_eq_true_2 _ Hs).
    cbn [negb Query].
    repeat case_bool_decide; cbn [negb Query];
      rewrite ?lookup_Add_ne by discriminate;
      rewrite lookup_Add_eq, lookup_empty; done.
  - exfalso. revert Hsame.
    rewrite (buildQuery_exercise_id (mkDownload p pl) (mkURL "" ∅) Hs).
    unfold Flat.buildQuery, isEmpty. cbn [toFlat Flat.uuid].
    rewrite (bool_decide_eq_false_2 _ Hu). cbn [Query].
    by rewrite lookup_empty.
Qed.

(** X22: on a 200 response whose payload has an empty solution ID and no
    error message the two pipelines part: [newDownload] returns the error
    of the missing ID, while [getDownloadPayload], for the same parameters
    and the same answers of the collaborators, returns the payload without
    error, and the flat writer of the files does not refuse it but goes
    through its files. *)
Theorem pipelines_differ_on_missing_id {Client Disk : Type}
    (E : Collaborators Client Disk) (p : downloadParams)
    (w w' : World Disk) (client : Client) (req : Request) (res : Response)
    (pl : downloadPayload) (usrCfg : gmap string string) :
  validateParams p = None →
  api_NewClient E (token p) (apibaseurl p) = (client, None) →
  client_NewRequest E client "GET" (requestURL (mkDownload p zeroPayload))
  = inl req →
  client_Do E (trace w ++ [EvNewClient (token p) (apibaseurl p)]) client
    (mkRequest (Method req)
       (buildQuery (mkDownload p zeroPayload) (ReqURL req)))
  = inl res →
  json_Decode E (Body res) = inl pl →
  StatusCode res = StatusOK →
  Solution_ID (Solution pl) = "" →
  Error_Message (Error pl) = "" →
  (newDownload E p w).1.2 = Some "download missing an ID"
  ∧ (Flat.getDownloadPayload E (toFlat p) w).1 = Ok pl
  ∧ Flat.writeSolutionFilesFromPayload E pl usrCfg w'
    = Flat.writeFiles E pl usrCfg (Files (Solution pl)) w'.
Proof.
  intros Hv Hclient Hreq Hdo Hdec Hstatus Hid Hmsg. split; [|split].
  - rewrite (newDownload_decoded E p w client req res pl) by assumption.
    cbn [fst snd]. unfold validate, isEmpty. cbn [payload].
    by rewrite (bool_decide_eq_true_2 _ Hid).
  - apply (getDownloadPayload_decoded E (toFlat p) w client req res pl);
      try done.
    + by rewrite (flat_requestURL p zeroPayload).
    + rewrite (flat_buildQuery p zeroPayload) by
        (by apply validateParams_slugXorUUID).
      done.
  - unfold Flat.writeSolutionFilesFromPayload, isEmpty.
    by rewrite (bool_decide_eq_true_2 _ Hmsg).
Qed.

Lemma pipelines_differ_on_missing_id_witness :
  (newDownload (sampleCollaborators (serveStatus 200) zeroPayload)
     sampleParams emptyWorld).1.2
  = Some "download missing an ID"
  ∧ (Flat.getDownloadPayload
       (sampleCollaborators (serveStatus 200) zeroPayload)
       (toFlat sampleParams) emptyWorld).1
    = Ok zeroPayload.
Proof.
  destruct (pipelines_differ_on_missing_id
              (sampleCollaborators (serveStatus 200) zeroPayload)
              sampleParams emptyWorld emptyWorld tt
              (mkRequest "GET"
                 (mkURL (requestURL (mkDownload sampleParams zeroPayload)) ∅))
              (serveStatus 200 (mkRequest "GET" (mkURL "" ∅)))
              zeroPayload ∅) as (Hstruct & Hflat & _);
    try reflexivity.
  by split.
Defined.

(** ** The two loops over the files *)

Lemma Join_Split (s : string) :
  Strings.Join (Strings.Split s "/") "/" = s.
Proof.
  induction s as [|c s IH]; [done|]. cbn [Strings.Split].
  destruct (Ascii.eqb c "/") eqn:Hc.
  - apply Ascii.eqb_eq in Hc as ->.
    pose proof (Split_nonempty s) as Hne.
    destruct (Strings.Split s "/") as [|f fs]; [done|].
    change (Strings.Join ("" :: f :: fs) "/")
      with ("" +:+ "/" +:+ Strings.Join (f :: fs) "/").
    by rewrite IH.
  - pose proof (Split_nonempty s) as Hne.
    destruct (Strings.Split s "/") as [|f fs]; [done|].
    rewrite Join_cons in IH. rewrite Join_cons, string_app_cons.
    by rewrite IH.
Qed.

Lemma plainRelPath_names (rel : string) :
  plainRelPath rel = true →
  ∃ name names,
    rel = name +:+ pathSuffix names
    ∧ plainName name = true
    ∧ Forall (λ name, plainName name = true) names.
Proof.
  unfold plainRelPath. intros Hall.
  pose proof (Join_Split rel) as Hjoin.
  pose proof (Split_nonempty rel) as Hne.
  destruct (Strings.Split rel "/") as [|name names]; [done|].
  cbn [forallb] in Hall. apply andb_prop in Hall as [Hname Hnames].
  exists name, names. rewrite Join_cons in Hjoin.
  split; [done|]. split; [done|].
  apply Forall_forall. intros n Hn.
  rewrite forallb_forall in Hnames. apply Hnames.
  by apply list_elem_of_In.
Qed.

Lemma plainName_cleanDir (name : string) :
  plainName name = true → cleanDir name = true.
Proof.
  intros Hname. unfold cleanDir.
  assert (Hclean : Filepath.Clean name = name).
  { assert (Hne : name ≠ "") by (by intros ->).
    rewrite Clean_nonempty by done.
    rewrite (isRooted_noSlash name (plainName_hasSlash _ Hname)).
    rewrite (Split_plain name (plainName_hasSlash _ Hname)).
    cbn [foldl]. by rewrite cleanStep_plain. }
  rewrite (bool_decide_eq_true_2 _ Hclean).
  unfold plainName in Hname.
  apply andb_prop in Hname as [Hname Hdd].
  apply andb_prop in Hname as [Hname Hd].
  apply andb_prop in Hname as [_ Hslash].
  rewrite Hd. cbn [andb]. rewrite andb_true_r.
  apply negb_true_iff, bool_decide_eq_false_2. intros ->. done.
Qed.

Lemma hasSlash_app (s t : string) :
  Filepath.hasSlash (s +:+ t)
  = (Filepath.hasSlash s || Filepath.hasSlash t)%bool.
Proof.
  induction s as [|a s IH]; [done|].
  rewrite string_app_cons. cbn [Filepath.hasSlash].
  by rewrite IH, orb_assoc.
Qed.

(** The part of [a/last] up to its last separator. *)
Lemma uptoLastSlash_app (a last : string) :
  Filepath.hasSlash last = false →
  Filepath.uptoLastSlash (a +:+ String "/" last) = a +:+ "/".
Proof.
  intros Hlast. induction a as [|c a IH].
  - change ("" +:+ String "/" last) with (String "/" last).
    cbn [Filepath.uptoLastSlash Filepath.hasSlash]. cbn [Ascii.eqb orb].
    change (Ascii.eqb "/" "/") with true. cbn [orb].
    destruct last as [|b last]; [done|].
    cbn [Filepath.uptoLastSlash]. by rewrite Hlast.
  - rewrite !string_app_cons. cbn [Filepath.uptoLastSlash].
    assert (Hs : Filepath.hasSlash (String c (a +:+ String "/" last)) = true).
    { cbn [Filepath.hasSlash]. rewrite hasSlash_app.
      cbn [Filepath.hasSlash]. change (Ascii.eqb "/" "/") with true.
      by rewrite !orb_true_r. }
    by rewrite Hs, IH.
Qed.

Lemma uptoLastSlash_plain (name : string) :
  Filepath.hasSlash name = false → Filepath.uptoLastSlash name = "".
Proof. destruct name as [|c name]; [done|]. cbn. by intros ->. Qed.

(** A trailing separator, or a trailing ["/."], is cleaned away. *)
Lemma Clean_trailing (a tail : string) :
  a ≠ "" → tail = "" ∨ tail = "." →
  Filepath.Clean (a +:+ String "/" tail) = Filepath.Clean a.
Proof.
  intros Hne Htail.
  rewrite !Clean_nonempty by (by destruct a).
  rewrite isRooted_app by done. rewrite Split_app, foldl_app.
  by destruct Htail as [-> | ->].
Qed.

(** [Dir] of a clean directory with plain names appended: the last name
    goes. *)
Lemma Dir_append_names (ws : string) (names : list string) (last : string) :
  cleanDir ws = true →
  Forall (λ name, plainName name = true) names →
  plainName last = true →
  Filepath.Dir (ws +:+ pathSuffix (names ++ [last]))
  = ws +:+ pathSuffix names.
Proof.
  intros Hws Hnames Hlast. unfold Filepath.Dir.
  assert (Hne : ws +:+ pathSuffix names ≠ "").
  { destruct ws; [|done]. by vm_compute in Hws. }
  assert (Happ : ∀ l, pathSuffix (l ++ [last])
                      = pathSuffix l +:+ String "/" last).
  { induction l as [|n l IH]; cbn [app pathSuffix].
    - by rewrite string_app_nil_r.
    - by rewrite IH, !string_app_assoc. }
  rewrite Happ, <- string_app_assoc.
  rewrite uptoLastSlash_app by (by apply plainName_hasSlash).
  change (?a +:+ "/") with (a +:+ String "/" "").
  rewrite Clean_trailing by (done || by left).
  by apply Clean_append_names.
Qed.

Lemma Join_pair (ws rel : string) :
  ws ≠ "" →
  Filepath.Join [ws; rel] = Filepath.Clean (ws +:+ String "/" rel).
Proof.
  intros Hne. cbn [Filepath.Join]. by rewrite (bool_decide_eq_false_2 _ Hne).
Qed.

(** For a clean destination and a relative path of plain names, the
    directory of the joined path is the destination joined with the
    directory of the relative path. *)
Lemma Dir_Join_commute (dest rel : string) :
  cleanDir dest = true →
  plainRelPath rel = true →
  Filepath.Dir (Filepath.Join [dest; rel])
  = Filepath.Join [dest; Filepath.Dir rel].
Proof.
  intros Hdest Hrel.
  destruct (plainRelPath_names rel Hrel) as (name & names & -> & Hname & Hnames).
  assert (Hne : dest ≠ "").
  { intros ->. by vm_compute in Hdest. }
  rewrite !Join_pair by done.
  change (dest +:+ String "/" (name +:+ pathSuffix names))
    with (dest +:+ pathSuffix (name :: names)).
  rewrite Clean_append_names by (done || by constructor).
  destruct (decide (names = [])) as [->|Hnil].
  - change (dest +:+ pathSuffix [name])
      with (dest +:+ pathSuffix ([] ++ [name])).
    rewrite Dir_append_names by done.
    cbn [pathSuffix]. rewrite !string_app_nil_r.
    unfold Filepath.Dir.
    rewrite uptoLastSlash_plain by (by apply plainName_hasSlash).
    change (Filepath.Clean "") with ".".
    rewrite Clean_trailing by (done || by right).
    unfold cleanDir in Hdest. apply andb_prop in Hdest as [Hdest _].
    apply andb_prop in Hdest as [Hdest _].
    by apply bool_decide_eq_true_1 in Hdest.
  - destruct (exists_last Hnil) as (init & last & ->).
    apply Forall_app in Hnames as [Hinit Hlast].
    inversion Hlast as [|? ? Hl _]; subst.
    change (name :: init ++ [last]) with ((name :: init) ++ [last]).
    rewrite Dir_append_names by (done || by constructor).
    change (name +:+ pathSuffix (init ++ [last]))
      with (name +:+ pathSuffix (init ++ [last])).
    rewrite (Dir_append_names name init last)
      by (done || by apply plainName_cleanDir).
    change (dest +:+ String "/" (name +:+ pathSuffix init))
      with (dest +:+ pathSuffix (name :: init)).
    rewrite Clean_append_names by (done || by constructor). done.
Qed.

(** X23: for a destination in clean form and file names whose sanitized
    paths are relative paths of plain elements, the loop of the flat
    pipeline and the loop of [writeSolutionFiles] do the same from every
    world: the same requests, the same directories and files, the same
    result. *)
Theorem file_loops_agree {Client Disk : Type}
    (E : Collaborators Client Disk) (d : download) (files : list string)
    (w : World Disk) :
  cleanDir (destination E d) = true →
  Forall (λ filename,
            plainRelPath
              (sanitizeLegacyNumericSuffixFilepath "/" filename
                 (Slug (exercise d))) = true) files →
  Flat.writeFiles E (payload d) (Flat.cfg (toFlat (params d))) files w
  = writeFiles E d files w.
Proof.
  intros Hdest Hfiles. revert w.
  induction Hfiles as [|filename files Hfile _ IH]; intros w; [done|].
  cbn [Flat.writeFiles writeFiles]. unfold requestFile.
  rewrite toFlat_token, toFlat_apibaseurl. rewrite !bind_run.
  destruct (lift (url_ParseRequestURI E _) w) as [[url|msg] w1]; [|done].
  rewrite !bind_run.
  destruct (NewClient E _ _ w1) as [[cl|msg] w2]; [|done].
  rewrite !bind_run.
  destruct (lift (client_NewRequest E _ _ _) w2) as [[req|msg] w3]; [|done].
  rewrite !bind_run.
  destruct (Do E _ req w3) as [[res|msg] w4]; [|done].
  destruct (negb (bool_decide (StatusCode res = StatusOK))); [apply IH|].
  destruct (bool_decide (Get (Header res) "Content-Length" = "0"));
    [apply IH|].
  unfold ret at 1.
  change (Flat.exerciseOf (payload d) (Flat.cfg (toFlat (params d))))
    with (exercise d).
  change (ws_MetadataDir E (exercise d)) with (destination E d).
  change (Filepath.FromSlash "/" (Strings.Replace _ "\" "/"))
    with (sanitizeLegacyNumericSuffixFilepath "/" filename
            (Slug (exercise d))).
  rewrite <- (Dir_Join_commute (destination E d) _ Hdest Hfile).
  rewrite !bind_run.
  destruct (MkdirAll E _ w4) as [[[]|msg] w5]; [|done].
  rewrite !bind_run.
  destruct (Create E _ w5) as [[[]|msg] w6]; [|done].
  rewrite !bind_run.
  destruct (Copy E _ _ w6) as [[[]|msg] w7]; [|done].
  apply IH.
Qed.

Lemma file_loops_agree_witness :
  Flat.writeFiles (sampleCollaborators serveFirstFile samplePayload)
    (payload sampleDownload) (Flat.cfg (toFlat (params sampleDownload)))
    ["exercise.go"; "README.md"] emptyWorld
  = writeFiles (sampleCollaborators serveFirstFile samplePayload)
      sampleDownload ["exercise.go"; "README.md"] emptyWorld.
Proof.
  apply file_loops_agree.
  - reflexivity.
  - repeat constructor.
Defined.
